(** * bqml/pipeline/main.py: batch submission, retried side effects, run outcome

    A shallow embedding of the measurement-protocol path of the pipeline
    ([write_to_ga_via_mp], [send_mp_hit],
    [prepare_payloads_for_batch_request]), of the two retried side effects
    ([write_to_bq_logs], [send_email]) and of the controller
    ([trigger_workflow]), followed by the properties proved about them.

    Conventions.
    - A Python [str] is a Rocq [string] holding its UTF-8 bytes.  Comparing
      two such strings byte by byte orders them as Python orders the
      corresponding [str] values (by code point), and [.encode("utf-8")]
      is the identity on this representation.
    - A [dict] is an association list in insertion order with one entry per
      key; [dict_set] is the item assignment [d[k] = v].
    - Every collaborator outside the file (the query engine, the collection
      endpoint, the log table, the mail service, the clock) is a field of
      [Collab]; what the program did to them is recorded in [World]. *)

From Stdlib Require Import List String Ascii ZArith NArith Lia Bool Arith.
From Stdlib Require Import Permutation Sorted DecimalString.
Import ListNotations.

Local Open Scope list_scope.

(* ------------------------------------------------------------------ *)
(** ** Python values *)

(** The scalar values a hit can hold.  Floating-point cells are left out. *)
Inductive PyVal : Type :=
| PyStr (s : string)
| PyInt (z : Z)
| PyBool (b : bool)
| PyNone.

(** [str(n)] for an integer. *)
Definition str_int (z : Z) : string := NilZero.string_of_int (Z.to_int z).

(** [str(n)] for a length. *)
Definition str_nat (n : nat) : string := str_int (Z.of_nat n).

(** [str(v)]. *)
Definition py_str (v : PyVal) : string :=
  match v with
  | PyStr s => s
  | PyInt z => str_int z
  | PyBool true => "True"
  | PyBool false => "False"
  | PyNone => "None"
  end.

(** The truth value of [v], as [if value:] tests it. *)
Definition truthy (v : PyVal) : bool :=
  match v with
  | PyStr s => negb (s =? "")%string
  | PyInt z => negb (z =? 0)%Z
  | PyBool b => b
  | PyNone => false
  end.

(** [s.encode("utf-8")]: strings already are their UTF-8 bytes. *)
Definition encode_utf8 (s : string) : string := s.

Definition newline : string := String "010"%char EmptyString.
Definition dquote : string := String "034"%char EmptyString.

(* ------------------------------------------------------------------ *)
(** ** Dictionaries *)

Definition Dict : Type := list (string * PyVal).

(** [d[k] = v]: replaces the value in place when [k] is present, appends a new
    entry otherwise. *)
Fixpoint dict_set (d : Dict) (k : string) (v : PyVal) : Dict :=
  match d with
  | [] => [(k, v)]
  | (k', v') :: rest =>
      if (k' =? k)%string then (k', v) :: rest
      else (k', v') :: dict_set rest k v
  end.

(** [d.get(k)]. *)
Fixpoint dict_get (d : Dict) (k : string) : option PyVal :=
  match d with
  | [] => None
  | (k', v') :: rest => if (k' =? k)%string then Some v' else dict_get rest k
  end.

Definition dict_keys (d : Dict) : list string := map fst d.

(** The value the last pair with key [k] gives, for a sequence of pairs that
    may repeat a key (the columns of a row). *)
Definition last_value (cols : list (string * PyVal)) (k : string) : option PyVal :=
  fold_left (fun acc kv => if (fst kv =? k)%string then Some (snd kv) else acc)
            cols None.

(* ------------------------------------------------------------------ *)
(** ** Hits (write_to_ga_via_mp, lines 205-212) *)

(** One row of the result set: its (column name, value) pairs in column
    order, as [iteritems()] yields them. *)
Definition Row : Type := list (string * PyVal).

(** Lines 206-208: the default fields whose value is truthy. *)
Definition add_defaults (hit_data : Dict) (defaults : Dict) : Dict :=
  fold_left (fun h kv => if truthy (snd kv) then dict_set h (fst kv) (snd kv) else h)
            defaults hit_data.

(** Lines 211-212: every column of the row. *)
Definition add_columns (hit_data : Dict) (bq_results_row : Row) : Dict :=
  fold_left (fun h kv => dict_set h (fst kv) (snd kv)) bq_results_row hit_data.

(** Lines 205-212. *)
Definition make_hit (GA_MP_STANDARD_HIT_DETAILS : Dict) (bq_results_row : Row) : Dict :=
  add_columns (add_defaults [] GA_MP_STANDARD_HIT_DETAILS) bq_results_row.

(* ------------------------------------------------------------------ *)
(** ** The encoder (prepare_payloads_for_batch_request) *)

(** [sorted(l, key=lambda t: t[0])]: a stable sort that compares keys with
    [<] only.  An element goes in front of the first element whose key is
    not smaller than its own. *)
Fixpoint insert_by_key (x : string * string) (l : list (string * string))
  : list (string * string) :=
  match l with
  | [] => [x]
  | y :: ys => if (fst y <? fst x)%string then y :: insert_by_key x ys
               else x :: y :: ys
  end.

Definition sorted_by_key (l : list (string * string)) : list (string * string) :=
  fold_right insert_by_key [] l.

(** urllib.parse: the bytes [quote] never escapes (letters, digits, [_.-~]). *)
Definition always_safe (c : ascii) : bool :=
  let n := nat_of_ascii c in
  ((65 <=? n) && (n <=? 90)) || ((97 <=? n) && (n <=? 122))
  || ((48 <=? n) && (n <=? 57))
  || (n =? 95) || (n =? 46) || (n =? 45) || (n =? 126).

Definition hex_digit (n : nat) : ascii :=
  if n <? 10 then ascii_of_nat (48 + n) else ascii_of_nat (55 + n).

(** One byte under [quote_plus]: kept when safe, [+] for a space, [%XX]
    (upper-case hexadecimal) otherwise. *)
Definition quote_byte (c : ascii) : string :=
  if always_safe c then String c EmptyString
  else if (c =? " ")%char then "+"%string
  else String "%"%char
         (String (hex_digit (nat_of_ascii c / 16))
            (String (hex_digit (nat_of_ascii c mod 16)) EmptyString)).

Fixpoint quote_plus (s : string) : string :=
  match s with
  | EmptyString => EmptyString
  | String c rest => (quote_byte c ++ quote_plus rest)%string
  end.

(** [urllib.parse.urlencode] of a sequence of pairs. *)
Definition urlencode (query : list (string * string)) : string :=
  String.concat "&"
    (map (fun kv => (quote_plus (fst kv) ++ "=" ++ quote_plus (snd kv))%string) query).

(** Line 189, for one payload [p]. *)
Definition payload_utf8 (p : Dict) : list (string * string) :=
  sorted_by_key (map (fun kv => (fst kv, encode_utf8 (py_str (snd kv)))) p).

(** Lines 189-191. *)
Definition prepare_payloads_for_batch_request (payloads : list Dict) : string :=
  let payloads_utf8 := map payload_utf8 payloads in
  String.concat newline (map urlencode payloads_utf8).

(* ------------------------------------------------------------------ *)
(** ** Exceptions, collaborators and the world *)

(** An exception object: its class name and the text [str(e)] gives.  Every
    exception of the model is an instance of [Exception], which is what the
    controller's [except Exception] catches. *)
Inductive PyExn : Type := Exn (cls : string) (msg : string).

Definition exn_str (e : PyExn) : string := let (_, msg) := e in msg.

Inductive Result (A : Type) : Type :=
| Ret (a : A)
| Raise (e : PyExn).
Arguments Ret {A} a.
Arguments Raise {A} e.

Definition is_raise {A} (r : Result A) : bool :=
  match r with Ret _ => false | Raise _ => true end.

(** What the program has done so far. *)
Record World : Type := mkWorld {
  posted : list string;                      (* bodies POSTed to the endpoint *)
  log_rows : list (string * string * string); (* INSERTs attempted: time, status, message *)
  mails : list (string * string);            (* mails attempted: time, error message *)
  slept : list Z;                            (* waits of the retry executor, in ms *)
  stdout : list string;                      (* lines printed *)
  clock_reads : nat                          (* calls of datetime.now() *)
}.

Definition empty_world : World := mkWorld [] [] [] [] [] 0.

(** How the collaborators answer.  The n-th call of each is answered by its
    index, so an answer may differ from attempt to attempt. *)
Record Collab : Type := mkCollab {
  query_result : Result (list Row);        (* read_from_bq *)
  bulk_upload : Result unit;               (* the data-import path, lines 299-302 *)
  endpoint : nat -> string -> Result Z;    (* status code of a POST, or a transport fault *)
  bq_insert : nat -> Result unit;          (* bigquery.Client().query(...) *)
  sendgrid : nat -> Result Z;              (* status code of sg.send, or its fault *)
  clock : nat -> string                    (* datetime.now().strftime(...) *)
}.

(** params.py: the configuration the module reads at import time. *)
Record Params : Type := mkParams {
  GA_IMPORT_METHOD : string;
  GA_MP_STANDARD_HIT_DETAILS : Dict;
  ENABLED_LOGGING : bool;
  ENABLED_EMAIL : bool
}.

(** A computation that reads and changes the world and returns or raises. *)
Definition M (A : Type) : Type := World -> Result A * World.

Definition ret {A} (a : A) : M A := fun w => (Ret a, w).

Definition raise {A} (e : PyExn) : M A := fun w => (Raise e, w).

Definition bind {A B} (m : M A) (k : A -> M B) : M B :=
  fun w => match m w with
           | (Ret a, w') => k a w'
           | (Raise e, w') => (Raise e, w')
           end.

(** [try: body  except Exception as e: handler e]. *)
Definition try_except {A} (body : M A) (handler : PyExn -> M A) : M A :=
  fun w => match body w with
           | (Ret a, w') => (Ret a, w')
           | (Raise e, w') => handler e w'
           end.

Notation "x <- m ;; k" := (bind m (fun x => k))
  (at level 61, m at next level, right associativity).
Notation "m ;;; k" := (bind m (fun _ => k))
  (at level 61, right associativity).

Definition print (line : string) : M unit :=
  fun w => (Ret tt, mkWorld (posted w) (log_rows w) (mails w) (slept w)
                            (stdout w ++ [line]) (clock_reads w)).

Definition time_sleep (ms : Z) : M unit :=
  fun w => (Ret tt, mkWorld (posted w) (log_rows w) (mails w) (slept w ++ [ms])
                            (stdout w) (clock_reads w)).

Definition now (env : Collab) : M string :=
  fun w => (Ret (clock env (clock_reads w)),
            mkWorld (posted w) (log_rows w) (mails w) (slept w)
                    (stdout w) (S (clock_reads w))).

(** [requests.Session().send(prepared)]: the status code of the response. *)
Definition session_send (env : Collab) (body : string) : M Z :=
  fun w => (endpoint env (List.length (posted w)) body,
            mkWorld (posted w ++ [body]) (log_rows w) (mails w) (slept w)
                    (stdout w) (clock_reads w)).

Definition bq_query (env : Collab) (row : string * string * string) : M unit :=
  fun w => (bq_insert env (List.length (log_rows w)),
            mkWorld (posted w) (log_rows w ++ [row]) (mails w) (slept w)
                    (stdout w) (clock_reads w)).

Definition sg_send (env : Collab) (mail : string * string) : M Z :=
  fun w => (sendgrid env (List.length (mails w)),
            mkWorld (posted w) (log_rows w) (mails w ++ [mail]) (slept w)
                    (stdout w) (clock_reads w)).

(* ------------------------------------------------------------------ *)
(** ** The retry executor

    [retry] is imported from the [retrying] package (line 27), which is not
    part of this repository.  The definitions below follow that package:
    [Retrying.call], [Retrying.stop_after_attempt] and
    [Retrying.exponential_sleep], for the keyword arguments the two
    decorated functions pass (lines 244-245 and 264-265).  With these
    arguments every exception is retried, no result is rejected, there is no
    jitter, and the exception of the last attempt is re-raised as it is. *)

Record RetryArgs : Type := mkRetryArgs {
  stop_max_attempt_number : nat;
  wait_exponential_multiplier : Z;
  wait_exponential_max : Z
}.

(** [return previous_attempt_number >= self._stop_max_attempt_number]. *)
Definition stop_after_attempt (args : RetryArgs) (previous_attempt_number : nat) : bool :=
  stop_max_attempt_number args <=? previous_attempt_number.

(** [exp = 2 ** previous_attempt_number; result = multiplier * exp], capped
    at the maximum and at zero from below. *)
Definition exponential_sleep (args : RetryArgs) (previous_attempt_number : nat) : Z :=
  let exp := (2 ^ Z.of_nat previous_attempt_number)%Z in
  let result := (wait_exponential_multiplier args * exp)%Z in
  let result := if (result >? wait_exponential_max args)%Z
                then wait_exponential_max args else result in
  if (result <? 0)%Z then 0%Z else result.

(** The loop of [Retrying.call] from attempt [attempt_number] on.
    [remaining] is the number of attempts the stop rule still allows after
    this one: the loop is entered with
    [remaining = stop_max_attempt_number - attempt_number], so that
    [remaining = 0] exactly when [stop_after_attempt] holds
    (see [remaining_zero_is_stop]). *)
Fixpoint call_from {A} (args : RetryArgs) (remaining attempt_number : nat)
         (fn : M A) : M A :=
  fun w =>
    match fn w with
    | (Ret a, w1) => (Ret a, w1)
    | (Raise e, w1) =>
        match remaining with
        | O => (Raise e, w1)
        | S remaining' =>
            let sleep := exponential_sleep args attempt_number in
            call_from args remaining' (S attempt_number) fn (snd (time_sleep sleep w1))
        end
    end.

(** [Retrying(...).call(fn)]: the first attempt has number 1. *)
Definition retry {A} (args : RetryArgs) (fn : M A) : M A :=
  call_from args (stop_max_attempt_number args - 1) 1 fn.

(** Lines 244-245 and 264-265. *)
Definition retry_args : RetryArgs := mkRetryArgs 5 1000 10000.

(** The world in which the loop makes its attempt number [first + j],
    having entered at attempt [first] in world [w], when the [j] attempts
    before it failed: after each of them the loop sleeps for the wait that
    attempt's number gives. *)
Fixpoint attempt_world_from {A} (args : RetryArgs) (fn : M A) (first : nat)
         (w : World) (j : nat) : World :=
  match j with
  | O => w
  | S j' => snd (time_sleep (exponential_sleep args (first + j'))
                            (snd (fn (attempt_world_from args fn first w j'))))
  end.

(** The world in which attempt [j + 1] of [retry args fn] starts. *)
Definition attempt_world {A} (args : RetryArgs) (fn : M A) (w : World) (j : nat) : World :=
  attempt_world_from args fn 1 w j.

(* ------------------------------------------------------------------ *)
(** ** The two retried side effects *)

(** Lines 253-259, the body of [write_to_bq_logs].  Creating the client and
    sending the query are one call of the collaborator. *)
Definition write_to_bq_logs_body (env : Collab) (status message : string) : M unit :=
  timestamp_utc <- now env ;;
  bq_query env (timestamp_utc, status, message).

Definition write_to_bq_logs (env : Collab) (status message : string) : M unit :=
  retry retry_args (write_to_bq_logs_body env status message).

(** [str(code)[0] != "2"]. *)
Definition first_digit_is_2 (code : Z) : bool :=
  match str_int code with
  | String c _ => (c =? "2")%char
  | EmptyString => false
  end.

(** Lines 275-284, the body of [send_email]. *)
Definition send_email_body (env : Collab) (error_message : string) : M unit :=
  timestamp_utc <- now env ;;
  status_code <- sg_send env (timestamp_utc, error_message) ;;
  if negb (first_digit_is_2 status_code)
  then raise (Exn "Exception" "Email not sent.")
  else ret tt.

Definition send_email (env : Collab) (error_message : string) : M unit :=
  retry retry_args (send_email_body env error_message).

(* ------------------------------------------------------------------ *)
(** ** The submitter (send_mp_hit) *)

Definition GA_MP_ENDPOINT : string := "https://www.google-analytics.com/batch".

(** [x in range(lo, hi)] for an integer [x]: [hi] itself is not in the range. *)
Definition in_range (lo hi x : Z) : bool := ((lo <=? x) && (x <? hi))%Z.

(** Lines 158-174.  The two lists come back with the payload appended to one
    of them. *)
Definition send_mp_hit (env : Collab) (payload_send : string)
           (success_requests failed_requests : list string)
  : M (list string * list string) :=
  print ("Sending measurement protcol request to url " ++ GA_MP_ENDPOINT)%string ;;;
  status_code <- session_send env payload_send ;;
  if negb (in_range 200 299 status_code) then
    print ("Measurement Protocol submission unsuccessful status code: "
             ++ str_int status_code)%string ;;;
    ret (success_requests, failed_requests ++ [payload_send])
  else
    print ("Measurement Protocol submission status code: "
             ++ str_int status_code)%string ;;;
    ret (success_requests ++ [payload_send], failed_requests).

(* ------------------------------------------------------------------ *)
(** ** The batch driver (write_to_ga_via_mp) *)

(** The local variables of the loop. *)
Record Locals : Type := mkLocals {
  i : nat;
  success_requests : list string;
  failed_requests : list string;
  payload_list : list Dict
}.

(** Lines 204-224: one iteration of the loop over the rows. *)
Definition loop_body (prm : Params) (env : Collab) (st : Locals) (bq_results_row : Row)
  : M Locals :=
  let i1 := i st + 1 in
  let hit_data := make_hit (GA_MP_STANDARD_HIT_DETAILS prm) bq_results_row in
  let payload_list1 := payload_list st ++ [hit_data] in
  if i1 mod 20 =? 0 then
    let payload_send := prepare_payloads_for_batch_request payload_list1 in
    print ("Payload to send: " ++ payload_send)%string ;;;
    lists <- send_mp_hit env payload_send (success_requests st) (failed_requests st) ;;
    ret (mkLocals 0 (fst lists) (snd lists) [])
  else
    ret (mkLocals i1 (success_requests st) (failed_requests st) payload_list1).

(** Line 203: the loop. *)
Fixpoint for_rows (prm : Params) (env : Collab) (df : list Row) (st : Locals) : M Locals :=
  match df with
  | [] => ret st
  | bq_results_row :: rest =>
      st' <- loop_body prm env st bq_results_row ;;
      for_rows prm env rest st'
  end.

(** Lines 200-233: the loop and the last batch call.  Returns the two lists
    as they stand when line 235 is reached. *)
Definition submit_batches (prm : Params) (env : Collab) (df : list Row)
  : M (list string * list string) :=
  st <- for_rows prm env df (mkLocals 0 [] [] []) ;;
  if 0 <? i st then
    print "Sending remaining items to GA" ;;;
    let payload_send := prepare_payloads_for_batch_request (payload_list st) in
    print ("Payload to send: " ++ payload_send)%string ;;;
    send_mp_hit env payload_send (success_requests st) (failed_requests st)
  else
    ret (success_requests st, failed_requests st).

(** [str + list]: the operands of [+] on line 239.  Python raises TypeError;
    the text is the one CPython 3.6 and later give. *)
Definition add_str_list (s : string) (l : list string) : M string :=
  raise (Exn "TypeError"
             ("can only concatenate str (not " ++ dquote ++ "list" ++ dquote
                ++ ") to str")%string).

(** Lines 235-237: the report line. *)
Definition report_line (success_requests failed_requests : list string) : string :=
  ("Completed all GA calls. Total successful batches:  "
     ++ str_nat (List.length success_requests)
     ++ " and failed batches: "
     ++ str_nat (List.length failed_requests))%string.

(** Lines 200-239. *)
Definition write_to_ga_via_mp (prm : Params) (env : Collab) (df : list Row) : M unit :=
  lists <- submit_batches prm env df ;;
  print (report_line (fst lists) (snd lists)) ;;;
  match snd lists with
  | [] => ret tt
  | _ :: _ =>
      line <- add_str_list "Failed request details: " (snd lists) ;;
      print line
  end.

(** The grouping the loop performs, on its own: the batches handed to the
    encoder, for the hits of the rows in order.  [i] and [payload_list] are
    the loop's variables of the same names; [emitted] collects the batches
    flushed so far. *)
Fixpoint accumulate_from (hits : list Dict) (i : nat) (payload_list : list Dict)
         (emitted : list (list Dict)) : list (list Dict) :=
  match hits with
  | [] => if 0 <? i then emitted ++ [payload_list] else emitted
  | hit_data :: rest =>
      let i1 := i + 1 in
      let payload_list1 := payload_list ++ [hit_data] in
      if i1 mod 20 =? 0 then accumulate_from rest 0 [] (emitted ++ [payload_list1])
      else accumulate_from rest i1 payload_list1 emitted
  end.

Definition accumulate (hits : list Dict) : list (list Dict) :=
  accumulate_from hits 0 [] [].

(* ------------------------------------------------------------------ *)
(** ** The controller (trigger_workflow) *)

Definition when (b : bool) (m : M unit) : M unit := if b then m else ret tt.

(** Lines 297-306: the flow inside the [try]. *)
Definition flow (prm : Params) (env : Collab) : M unit :=
  df <- (fun w => (query_result env, w)) ;;
  if (GA_IMPORT_METHOD prm =? "di")%string then
    (fun w => (bulk_upload env, w))
  else if (GA_IMPORT_METHOD prm =? "mp")%string then
    write_to_ga_via_mp prm env df
  else
    raise (Exn "Exception" "GA Export Method not found.").

(** Lines 312-317: the handler of [except Exception as e]. *)
Definition on_error (prm : Params) (env : Collab) (timestamp_utc : string) (e : PyExn)
  : M string :=
  when (ENABLED_LOGGING prm) (write_to_bq_logs env "ERROR" (exn_str e)) ;;;
  when (ENABLED_EMAIL prm) (send_email env (exn_str e)) ;;;
  ret (timestamp_utc ++ ",ERROR," ++ exn_str e)%string.

(** Lines 295-317. *)
Definition trigger_workflow (prm : Params) (env : Collab) : M string :=
  timestamp_utc <- now env ;;
  try_except
    (flow prm env ;;;
     when (ENABLED_LOGGING prm) (write_to_bq_logs env "SUCCESS" "") ;;;
     ret (timestamp_utc ++ ",SUCCESS")%string)
    (on_error prm env timestamp_utc).

(* ------------------------------------------------------------------ *)
(** ** The columns read_from_bq returns (lines 91-95) *)

(** [s.replace(old, new)] for one-character [old] and [new]: every
    occurrence is replaced. *)
Fixpoint str_replace_char (old new : ascii) (s : string) : string :=
  match s with
  | EmptyString => EmptyString
  | String c rest =>
      String (if (c =? old)%char then new else c) (str_replace_char old new rest)
  end.

(** Lines 91-96: the column names of the dataframe [read_from_bq] returns,
    for the column names of the query result. *)
Definition returned_columns (prm : Params) (columns : list string) : list string :=
  if (GA_IMPORT_METHOD prm =? "di")%string
  then map (str_replace_char "_" ":") columns
  else columns.

(* ------------------------------------------------------------------ *)
(** ** Deleting earlier uploads (delete_ga_prev_uploads) *)

(** One entry of the listing: a JSON object, as a dictionary of strings. *)
Definition Upload : Type := list (string * string).

(** [d[k]] on such an object: [KeyError] when the key is missing. *)
Fixpoint upload_field (d : Upload) (k : string) : Result string :=
  match d with
  | [] => Raise (Exn "KeyError" ("'" ++ k ++ "'")%string)
  | (k', v) :: rest => if (k' =? k)%string then Ret v else upload_field rest k
  end.

(** [[upload["id"] for upload in l]]: stops at the first upload without an id. *)
Fixpoint upload_ids (l : list Upload) : Result (list string) :=
  match l with
  | [] => Ret []
  | upload :: rest =>
      match upload_field upload "id" with
      | Raise e => Raise e
      | Ret id =>
          match upload_ids rest with
          | Raise e => Raise e
          | Ret ids => Ret (id :: ids)
          end
      end
  end.

(** The management API, as the function uses it: the answer to the listing
    (its ["items"], when the answer has that key) and the answer to a delete
    request for a list of ids. *)
Record GaApi : Type := mkGaApi {
  uploads_list : Result (option (list Upload));
  uploads_delete : list string -> Result unit
}.

(** Lines 132-143.  Returns the outcome together with the delete requests
    issued, each by the ids it names. *)
Definition delete_ga_prev_uploads (ga_api : GaApi) : Result unit * list (list string) :=
  match uploads_list ga_api with
  | Raise e => (Raise e, [])
  | Ret None => (Raise (Exn "KeyError" "'items'"), [])
  | Ret (Some uploads) =>
      match upload_ids (tl uploads) with
      | Raise e => (Raise e, [])
      | Ret cids => (uploads_delete ga_api cids, [cids])
      end
  end.

(* ------------------------------------------------------------------ *)
(** ** Notions the statements use *)

(** The number of bytes [c] in [s]. *)
Fixpoint count_char (c : ascii) (s : string) : nat :=
  match s with
  | EmptyString => 0
  | String c' rest => (if (c' =? c)%char then 1 else 0) + count_char c rest
  end.

(** Every byte of [s] passes [p]. *)
Fixpoint string_forallb (p : ascii -> bool) (s : string) : bool :=
  match s with
  | EmptyString => true
  | String c rest => p c && string_forallb p rest
  end.

(** The bytes [quote_plus] produces: the safe ones, [+] and [%]. *)
Definition quoted_byte (c : ascii) : bool :=
  always_safe c || (c =? "+")%char || (c =? "%")%char.

(** The bytes of one line of a payload: those, [=] and [&]. *)
Definition line_byte (c : ascii) : bool :=
  quoted_byte c || (c =? "=")%char || (c =? "&")%char.

(** The bytes of a payload: those and the newline. *)
Definition payload_byte (c : ascii) : bool :=
  line_byte c || (c =? "010")%char.

(** A computation that leaves the part [proj] of the world as it was. *)
Definition keeps {A X} (proj : World -> X) (m : M A) : Prop :=
  forall w, proj (snd (m w)) = proj w.

(** Every POST is answered with a status code from 200 to 298. *)
Definition all_accepted (env : Collab) : Prop :=
  forall n body, exists code,
    endpoint env n body = Ret code /\ (200 <= code <= 298)%Z.

(** The value of a hexadecimal digit, upper or lower case. *)
Definition hex_value (c : ascii) : nat :=
  let n := nat_of_ascii c in
  if (48 <=? n) && (n <=? 57) then n - 48
  else if (65 <=? n) && (n <=? 70) then n - 55
  else n - 87.

(** The inverse of [quote_plus] on what it produces: [+] is a space and
    [%XY] the byte with hexadecimal digits [X] and [Y]. *)
Fixpoint unquote_plus (s : string) : string :=
  match s with
  | EmptyString => EmptyString
  | String c rest =>
      if (c =? "+")%char then String " "%char (unquote_plus rest)
      else if (c =? "%")%char then
        match rest with
        | String h (String l rest') =>
            String (ascii_of_nat (16 * hex_value h + hex_value l)) (unquote_plus rest')
        | _ => String c (unquote_plus rest)
        end
      else String c (unquote_plus rest)
  end.

(** The default fields the hit starts from: those whose value is truthy. *)
Definition included_defaults (defaults : Dict) : Dict :=
  filter (fun kv => truthy (snd kv)) defaults.


(** The sizes of the batches for [n] hits: full batches, then the
    remainder when there is one. *)
Definition batch_sizes (n : nat) : list nat :=
  repeat 20 (n / 20) ++ (if 0 <? n mod 20 then [n mod 20] else []).

(** No POST of the run ends in a transport fault. *)
Definition no_transport_fault (env : Collab) : Prop :=
  forall n body, is_raise (endpoint env n body) = false.

(** A computation that sends no mail. *)
Definition sends_no_mail {A} (m : M A) : Prop :=
  forall w, mails (snd (m w)) = mails w.

(** Lines 297-310: what the [try] runs before it returns. *)
Definition try_block (prm : Params) (env : Collab) : M unit :=
  flow prm env ;;; when (ENABLED_LOGGING prm) (write_to_bq_logs env "SUCCESS" "").

(* ------------------------------------------------------------------ *)
(** ** Sample runs *)

(** A row with a client id and an event value. *)
Definition sample_row : Row := [("cid", PyStr "555.777"); ("ev", PyInt 3)]%string.

(** A configuration with three default fields, one of them empty. *)
Definition sample_params (mode : string) (logging email : bool) : Params :=
  mkParams mode [("v", PyStr "1"); ("t", PyStr "event"); ("ec", PyStr "")]%string
           logging email.

(** A run over 45 rows in which the second POST is answered with 500 and the
    others with 200; the side effects succeed. *)
Definition env_middle_failure : Collab :=
  mkCollab (Ret (repeat sample_row 45)) (Ret tt)
           (fun n _ => if n =? 1 then Ret 500%Z else Ret 200%Z)
           (fun _ => Ret tt) (fun _ => Ret 202%Z)
           (fun _ => "2020-06-01 10:00:00"%string).

(** A run over 45 rows whose first POST ends in a transport fault. *)
Definition env_transport_fault : Collab :=
  mkCollab (Ret (repeat sample_row 45)) (Ret tt)
           (fun _ _ => Raise (Exn "ConnectionError" "Connection aborted."))
           (fun _ => Ret tt) (fun _ => Ret 202%Z)
           (fun _ => "2020-06-01 10:00:00"%string).

(** A run whose row read succeeds while the log table and the mail service
    refuse every attempt. *)
Definition env_side_effects_down : Collab :=
  mkCollab (Ret [sample_row]) (Ret tt)
           (fun _ _ => Ret 200%Z)
           (fun _ => Raise (Exn "ServiceUnavailable" "503 backend error"))
           (fun _ => Raise (Exn "HTTPError" "HTTP Error 401: Unauthorized"))
           (fun _ => "2020-06-01 10:00:00"%string).

(** A run in which the log table refuses the first five INSERTs and accepts
    the later ones. *)
Definition env_log_recovers : Collab :=
  mkCollab (Ret [sample_row]) (Ret tt)
           (fun _ _ => Ret 200%Z)
           (fun n => if n <? 5 then Raise (Exn "ServiceUnavailable" "503 backend error")
                     else Ret tt)
           (fun _ => Ret 202%Z)
           (fun _ => "2020-06-01 10:00:00"%string).

(* ================================================================== *)
(** * Properties *)

#[local] Arguments Nat.modulo : simpl never.
#[local] Arguments Nat.div : simpl never.

(* ------------------------------------------------------------------ *)
(** ** Dictionaries and hits *)

Lemma dict_get_set (d : Dict) (k k' : string) (v : PyVal) :
  dict_get (dict_set d k v) k' = if (k =? k')%string then Some v else dict_get d k'.
Proof.
  induction d as [|[k0 v0] d IH]; simpl.
  - reflexivity.
  - destruct (String.eqb_spec k0 k) as [->|Hne]; simpl.
    + destruct (k =? k')%string; reflexivity.
    + rewrite IH. destruct (String.eqb_spec k0 k') as [->|Hne'].
      * apply String.eqb_neq in Hne. rewrite String.eqb_sym in Hne.
        now rewrite Hne.
      * reflexivity.
Qed.

Lemma dict_keys_set (d : Dict) (k : string) (v : PyVal) :
  dict_keys (dict_set d k v) = if existsb (String.eqb k) (dict_keys d)
                               then dict_keys d else dict_keys d ++ [k].
Proof.
  unfold dict_keys.
  induction d as [|[k0 v0] d IH]; simpl.
  - reflexivity.
  - rewrite (String.eqb_sym k k0).
    destruct (k0 =? k)%string; simpl.
    + reflexivity.
    + rewrite IH.
      destruct (existsb (String.eqb k) (map fst d)); reflexivity.
Qed.

Lemma existsb_eqb_In (k : string) (l : list string) :
  existsb (String.eqb k) l = true <-> In k l.
Proof.
  rewrite existsb_exists. split.
  - intros [x [Hin Heq]]. apply String.eqb_eq in Heq. now subst.
  - intros Hin. exists k. split; [assumption | apply String.eqb_refl].
Qed.

Lemma dict_set_NoDup (d : Dict) (k : string) (v : PyVal) :
  NoDup (dict_keys d) -> NoDup (dict_keys (dict_set d k v)).
Proof.
  intros Hnd. rewrite dict_keys_set.
  destruct (existsb (String.eqb k) (dict_keys d)) eqn:E; [assumption|].
  apply NoDup_app; [assumption | repeat constructor; simpl; tauto |].
  intros x Hx [<-|[]].
  apply existsb_eqb_In in Hx. congruence.
Qed.

Lemma dict_get_In (d : Dict) (k : string) :
  In k (dict_keys d) <-> dict_get d k <> None.
Proof.
  induction d as [|[k0 v0] d IH]; simpl.
  - tauto.
  - destruct (String.eqb_spec k0 k) as [->|Hne].
    + split; [discriminate | tauto].
    + rewrite <- IH. tauto.
Qed.

(** [last_value] with the value found so far made explicit. *)
Lemma last_value_fold (cols : list (string * PyVal)) (k : string) (acc : option PyVal) :
  fold_left (fun acc kv => if (fst kv =? k)%string then Some (snd kv) else acc) cols acc
  = match last_value cols k with Some v => Some v | None => acc end.
Proof.
  unfold last_value. revert acc.
  induction cols as [|[k0 v0] cols IH]; intros acc; simpl.
  - reflexivity.
  - rewrite IH. rewrite (IH (if (k0 =? k)%string then Some v0 else None)).
    destruct (fold_left _ cols None); [reflexivity|].
    destruct (k0 =? k)%string; reflexivity.
Qed.

Lemma last_value_cons (k0 : string) (v0 : PyVal) (cols : list (string * PyVal))
      (k : string) :
  last_value ((k0, v0) :: cols) k
  = match last_value cols k with
    | Some v => Some v
    | None => if (k0 =? k)%string then Some v0 else None
    end.
Proof. unfold last_value at 1. simpl. apply last_value_fold. Qed.

Lemma last_value_In (cols : list (string * PyVal)) (k : string) :
  In k (map fst cols) <-> last_value cols k <> None.
Proof.
  induction cols as [|[k0 v0] cols IH]; simpl.
  - unfold last_value. simpl. tauto.
  - rewrite last_value_cons.
    destruct (last_value cols k) eqn:E.
    + split; [discriminate|]. intros _. right. apply IH. discriminate.
    + destruct (String.eqb_spec k0 k) as [->|Hne].
      * split; [discriminate | tauto].
      * split; [|tauto]. intros [H|H]; [contradiction|]. now apply IH in H.
Qed.

Lemma add_columns_get (row : Row) (h : Dict) (k : string) :
  dict_get (add_columns h row) k
  = match last_value row k with Some v => Some v | None => dict_get h k end.
Proof.
  unfold add_columns. revert h.
  induction row as [|[k0 v0] row IH]; intros h; simpl.
  - reflexivity.
  - rewrite IH, dict_get_set, last_value_cons.
    destruct (last_value row k); [reflexivity|].
    destruct (k0 =? k)%string; reflexivity.
Qed.

Lemma add_columns_NoDup (row : Row) (h : Dict) :
  NoDup (dict_keys h) -> NoDup (dict_keys (add_columns h row)).
Proof.
  unfold add_columns. revert h.
  induction row as [|[k0 v0] row IH]; intros h Hnd; simpl.
  - assumption.
  - apply IH, dict_set_NoDup, Hnd.
Qed.

Lemma add_defaults_filter (defaults h : Dict) :
  add_defaults h defaults = add_columns h (included_defaults defaults).
Proof.
  unfold add_defaults, add_columns, included_defaults. revert h.
  induction defaults as [|[k0 v0] defaults IH]; intros h; simpl.
  - reflexivity.
  - destruct (truthy v0); simpl; apply IH.
Qed.

Lemma last_value_NoDup (d : Dict) (k : string) :
  NoDup (dict_keys d) -> last_value d k = dict_get d k.
Proof.
  induction d as [|[k0 v0] d IH]; intros Hnd.
  - reflexivity.
  - inversion Hnd as [|? ? Hnotin Hnd']; subst.
    rewrite last_value_cons, (IH Hnd'). simpl.
    destruct (String.eqb_spec k0 k) as [->|Hne].
    + destruct (dict_get d k) eqn:E; [|reflexivity].
      exfalso. apply Hnotin. apply dict_get_In. congruence.
    + destruct (dict_get d k); reflexivity.
Qed.

(** C7, as the code has it.  The hit built from a row holds exactly the
    default fields whose value is truthy, which is what line 207 tests,
    overlaid with every column of the row: it has one entry per key, its keys
    are those of the included defaults together with the row's columns, and a
    key the row has takes the row's value, the default's otherwise.  A
    default is included exactly when [if value:] passes: a string other than
    the empty one, an integer other than 0, [True]; the empty string, 0,
    [False] and [None] are left out. *)
Theorem make_hit_overlay (defaults : Dict) (row : Row) :
  NoDup (dict_keys (make_hit defaults row))
  /\ (forall k, In k (dict_keys (make_hit defaults row))
                <-> In k (dict_keys (included_defaults defaults)) \/ In k (map fst row))
  /\ (forall k, dict_get (make_hit defaults row) k
                = match last_value row k with
                  | Some v => Some v
                  | None => last_value (included_defaults defaults) k
                  end)
  /\ (forall k v, In (k, v) (included_defaults defaults)
                  <-> In (k, v) defaults /\ truthy v = true)
  /\ (forall s, truthy (PyStr s) = true <-> s <> ""%string)
  /\ (forall z, truthy (PyInt z) = true <-> z <> 0%Z)
  /\ (forall b, truthy (PyBool b) = b)
  /\ truthy PyNone = false.
Proof.
  assert (Hget : forall k, dict_get (make_hit defaults row) k
                = match last_value row k with
                  | Some v => Some v
                  | None => last_value (included_defaults defaults) k
                  end).
  { intros k. unfold make_hit.
    rewrite add_columns_get, add_defaults_filter, add_columns_get. simpl.
    destruct (last_value row k); [reflexivity|].
    destruct (last_value (included_defaults defaults) k); reflexivity. }
  split; [|split; [|split; [|split; [|split; [|split; [|split]]]]]].
  - unfold make_hit. apply add_columns_NoDup.
    rewrite add_defaults_filter. apply add_columns_NoDup. constructor.
  - intros k. rewrite dict_get_In, Hget.
    fold (dict_keys (included_defaults defaults)).
    pose proof (last_value_In row k) as Hrow.
    pose proof (last_value_In (included_defaults defaults) k) as Hdef.
    unfold dict_keys in *.
    destruct (last_value row k); destruct (last_value (included_defaults defaults) k);
      split; intros; try tauto; try discriminate.
  - exact Hget.
  - intros k v. unfold included_defaults. rewrite filter_In. reflexivity.
  - intros s0. simpl. destruct (String.eqb_spec s0 ""); simpl; split; intros;
      try tauto; try discriminate.
  - intros z. simpl. destruct (Z.eqb_spec z 0); simpl; split; intros;
      try tauto; try discriminate.
  - reflexivity.
  - reflexivity.
Qed.

(** C7, as stated, fails for a default that is not empty but falsy: with the
    defaults [{"ni": 0, "aip": False, "v": "1"}] and a row with the column
    [cid], the hit has the keys [v] and [cid] only. *)
Lemma falsy_defaults_are_dropped :
  dict_keys (make_hit [("ni", PyInt 0); ("aip", PyBool false); ("v", PyStr "1")]%string
                      [("cid", PyStr "555.777")]%string)
  = ["v"; "cid"]%string
  /\ dict_get (make_hit [("ni", PyInt 0); ("aip", PyBool false); ("v", PyStr "1")]%string
                        [("cid", PyStr "555.777")]%string) "ni" = None
  /\ dict_get (make_hit [("ni", PyInt 0); ("aip", PyBool false); ("v", PyStr "1")]%string
                        [("cid", PyStr "555.777")]%string) "aip" = None.
Proof. repeat split. Qed.

(* ------------------------------------------------------------------ *)
(** ** The order of keys *)







(* ------------------------------------------------------------------ *)
(** ** The sort of the encoder *)

Lemma insert_by_key_perm (x : string * string) (l : list (string * string)) :
  Permutation (insert_by_key x l) (x :: l).
Proof.
  induction l as [|y ys IH]; simpl.
  - apply Permutation_refl.
  - destruct (fst y <? fst x)%string.
    + eapply perm_trans; [apply perm_skip, IH | apply perm_swap].
    + apply Permutation_refl.
Qed.

Lemma sorted_by_key_perm (l : list (string * string)) :
  Permutation (sorted_by_key l) l.
Proof.
  induction l as [|x l IH]; simpl.
  - constructor.
  - eapply perm_trans; [apply insert_by_key_perm | apply perm_skip, IH].
Qed.




Example encode_b2_a1 :
  prepare_payloads_for_batch_request [[("b", PyStr "2"); ("a", PyStr "1")]]%string
  = "a=1&b=2"%string.
Proof. reflexivity. Qed.

Example encode_escapes :
  prepare_payloads_for_batch_request
    [[("k", PyStr "a b&c"); ("n", PyInt 12)]; [("z", PyBool true)]]%string
  = ("k=a+b%26c&n=12" ++ newline ++ "z=True")%string.
Proof. reflexivity. Qed.




(* ------------------------------------------------------------------ *)
(** ** The batch accumulator *)

Lemma accumulate_from_emitted (hits : list Dict) (i0 : nat) (pl : list Dict)
      (emitted : list (list Dict)) :
  accumulate_from hits i0 pl emitted = emitted ++ accumulate_from hits i0 pl [].
Proof.
  revert i0 pl emitted.
  induction hits as [|h hits IH]; intros i0 pl emitted; simpl.
  - destruct (0 <? i0); [reflexivity | now rewrite app_nil_r].
  - destruct ((i0 + 1) mod 20 =? 0).
    + rewrite (IH 0 [] (emitted ++ _)), (IH 0 [] [_]).
      now rewrite <- app_assoc.
    + apply IH.
Qed.

Lemma batch_sizes_step (n : nat) : batch_sizes (20 + n) = 20 :: batch_sizes n.
Proof.
  unfold batch_sizes.
  replace (20 + n) with (n + 1 * 20) by lia.
  rewrite Nat.div_add, Nat.Div0.mod_add by lia.
  replace (n / 20 + 1) with (S (n / 20)) by lia.
  reflexivity.
Qed.

Lemma batch_sizes_small (n : nat) :
  n < 20 -> batch_sizes n = if 0 <? n then [n] else [].
Proof.
  intros Hn. unfold batch_sizes.
  rewrite Nat.div_small, Nat.mod_small by assumption. reflexivity.
Qed.

(** The loop's invariant: [i] counts the hits waiting in [payload_list],
    fewer than twenty of them. *)
Lemma accumulate_from_spec (hits : list Dict) (pl : list Dict) :
  List.length pl < 20 ->
  List.concat (accumulate_from hits (List.length pl) pl []) = pl ++ hits
  /\ map (@List.length Dict) (accumulate_from hits (List.length pl) pl [])
     = batch_sizes (List.length pl + List.length hits).
Proof.
  revert pl.
  induction hits as [|h hits IH]; intros pl Hlt; simpl.
  - rewrite Nat.add_0_r, batch_sizes_small by assumption.
    destruct pl as [|h pl]; simpl; [split; reflexivity|].
    now rewrite !app_nil_r.
  - destruct ((List.length pl + 1) mod 20 =? 0) eqn:E.
    + apply Nat.eqb_eq in E.
      assert (Hlen : List.length pl = 19).
      { destruct (Nat.eq_dec (List.length pl) 19) as [|Hne]; [assumption|].
        rewrite Nat.mod_small in E by lia. lia. }
      rewrite accumulate_from_emitted. simpl.
      destruct (IH [] ltac:(simpl; lia)) as [Hc Hs]. simpl in Hc, Hs.
      rewrite Hc, Hs. split.
      * now rewrite <- app_assoc.
      * rewrite length_app, Hlen.
        replace (19 + S (List.length hits)) with (20 + List.length hits) by lia.
        rewrite batch_sizes_step. reflexivity.
    + apply Nat.eqb_neq in E.
      assert (Hlt' : List.length (pl ++ [h]) < 20).
      { rewrite length_app. simpl.
        destruct (Nat.eq_dec (List.length pl) 19) as [He|Hne]; [|lia].
        rewrite He in E. simpl in E. contradiction. }
      destruct (IH (pl ++ [h]) Hlt') as [Hc Hs].
      rewrite length_app in Hc, Hs. simpl in Hc, Hs.
      rewrite Hc, Hs. split.
      * now rewrite <- app_assoc.
      * f_equal. lia.
Qed.

Lemma accumulate_sizes (hits : list Dict) :
  List.concat (accumulate hits) = hits
  /\ map (@List.length Dict) (accumulate hits) = batch_sizes (List.length hits).
Proof.
  unfold accumulate.
  now destruct (accumulate_from_spec hits [] ltac:(simpl; lia)) as [Hc Hs].
Qed.

Lemma accumulate_count (hits : list Dict) :
  List.length (accumulate hits)
  = List.length hits / 20 + (if 0 <? List.length hits mod 20 then 1 else 0).
Proof.
  destruct (accumulate_sizes hits) as [_ Hs].
  rewrite <- (length_map (@List.length Dict)), Hs.
  unfold batch_sizes. rewrite length_app, repeat_length.
  destruct (0 <? List.length hits mod 20); reflexivity.
Qed.

(** The grouping on its own: for N hits, floor(N/20) batches of twenty hits
    followed by one batch of the N mod 20 hits that remain when there are
    any; no batch is empty; the batches, concatenated, are the hits. *)
Lemma accumulate_batches (hits : list Dict) :
  let n := List.length hits in
  List.concat (accumulate hits) = hits
  /\ map (@List.length Dict) (accumulate hits)
     = repeat 20 (n / 20) ++ (if 0 <? n mod 20 then [n mod 20] else [])
  /\ Forall (fun batch => 1 <= List.length batch <= 20) (accumulate hits)
  /\ List.length (accumulate hits) = n / 20 + (if 0 <? n mod 20 then 1 else 0).
Proof.
  intros n.
  destruct (accumulate_sizes hits) as [Hc Hs].
  fold n in Hs. unfold batch_sizes in Hs.
  assert (Hmod : n mod 20 < 20) by (apply Nat.mod_upper_bound; lia).
  split; [exact Hc|]. split; [exact Hs|]. split.
  - apply Forall_forall. intros batch Hin.
    apply (in_map (@List.length Dict)) in Hin. rewrite Hs in Hin.
    apply in_app_or in Hin. destruct Hin as [Hin|Hin].
    + apply repeat_spec in Hin. lia.
    + destruct (0 <? n mod 20) eqn:E; [|contradiction].
      apply Nat.ltb_lt in E. destruct Hin as [<-|[]]. lia.
  - apply accumulate_count.
Qed.

Example accumulate_45 :
  map (@List.length Dict) (accumulate (repeat [] 45)) = [20; 20; 5].
Proof. reflexivity. Qed.

(* ------------------------------------------------------------------ *)
(** ** The submitter and the batch driver *)

(** What one submission does when the endpoint answers with [code]. *)
Lemma send_mp_hit_answered (env : Collab) (p : string) (s f : list string)
      (w : World) (code : Z) :
  endpoint env (List.length (posted w)) p = Ret code ->
  exists w',
    send_mp_hit env p s f w
    = (Ret (if in_range 200 299 code then (s ++ [p], f) else (s, f ++ [p])), w')
    /\ posted w' = posted w ++ [p].
Proof.
  intros H. unfold send_mp_hit, bind, print, session_send, ret. simpl.
  rewrite H. destruct (in_range 200 299 code); simpl; eexists; split; reflexivity.
Qed.

(** A transport fault leaves the submission without a result. *)
Lemma send_mp_hit_fault (env : Collab) (p : string) (s f : list string)
      (w : World) (e : PyExn) :
  endpoint env (List.length (posted w)) p = Raise e ->
  fst (send_mp_hit env p s f w) = Raise e.
Proof.
  intros H. unfold send_mp_hit, bind, print, session_send, ret. simpl.
  now rewrite H.
Qed.

Lemma answered (env : Collab) (n : nat) (body : string) :
  no_transport_fault env -> exists code, endpoint env n body = Ret code.
Proof.
  intros H. specialize (H n body).
  destruct (endpoint env n body) as [code|e]; [now exists code | discriminate].
Qed.

(** The loop, when every POST is answered: it flushes the batches the
    accumulator forms, POSTs them in order, and files each payload under one
    of the two lists. *)
Lemma for_rows_answered (prm : Params) (env : Collab) (df : list Row) :
  no_transport_fault env ->
  forall (st : Locals) (w : World),
  exists st' w' flushed,
    for_rows prm env df st w = (Ret st', w')
    /\ accumulate_from (map (make_hit (GA_MP_STANDARD_HIT_DETAILS prm)) df)
                       (i st) (payload_list st) []
       = flushed ++ (if 0 <? i st' then [payload_list st'] else [])
    /\ posted w' = posted w ++ map prepare_payloads_for_batch_request flushed
    /\ Permutation (success_requests st' ++ failed_requests st')
                   (success_requests st ++ failed_requests st
                      ++ map prepare_payloads_for_batch_request flushed).
Proof.
  intros Hnf.
  induction df as [|row df IH]; intros st w.
  - exists st, w, []. simpl. rewrite !app_nil_r. repeat split.
    apply Permutation_refl.
  - simpl. unfold bind at 1. unfold loop_body.
    set (pl1 := payload_list st ++ [make_hit (GA_MP_STANDARD_HIT_DETAILS prm) row]).
    destruct ((i st + 1) mod 20 =? 0) eqn:E.
    + set (body := prepare_payloads_for_batch_request pl1).
      unfold bind at 1. unfold print at 1. simpl.
      set (w1 := mkWorld _ _ _ _ _ _).
      destruct (answered env (List.length (posted w1)) body Hnf) as [code Hcode].
      destruct (send_mp_hit_answered env body (success_requests st)
                  (failed_requests st) w1 code Hcode) as [w2 [Hsend Hposted]].
      unfold bind at 1. rewrite Hsend. unfold ret at 1.
      set (st1 := mkLocals 0 _ _ []).
      destruct (IH st1 w2) as [st' [w' [flushed [Hrun [Hacc [Hpost Hperm]]]]]].
      exists st', w', (pl1 :: flushed).
      split; [exact Hrun|]. split; [|split].
      * rewrite accumulate_from_emitted. simpl in Hacc. rewrite Hacc. reflexivity.
      * rewrite Hpost, Hposted. subst w1. simpl. now rewrite <- app_assoc.
      * eapply perm_trans; [exact Hperm|]. subst st1. simpl.
        fold body.
        destruct (in_range 200 299 code); simpl.
        -- rewrite <- !app_assoc. apply Permutation_app_head. simpl.
           apply Permutation_middle.
        -- rewrite <- !app_assoc. apply Permutation_app_head.
           apply Permutation_app_head. apply Permutation_refl.
    + unfold ret at 1.
      set (st1 := mkLocals (i st + 1) _ _ pl1).
      destruct (IH st1 w) as [st' [w' [flushed [Hrun [Hacc [Hpost Hperm]]]]]].
      exists st', w', flushed.
      split; [exact Hrun|]. split; [exact Hacc|]. split; [exact Hpost|].
      exact Hperm.
Qed.

(** Lines 200-233 when every POST is answered. *)
Lemma submit_batches_answered (prm : Params) (env : Collab) (df : list Row) (w : World) :
  no_transport_fault env ->
  exists s f w',
    submit_batches prm env df w = (Ret (s, f), w')
    /\ posted w' = posted w
                   ++ map prepare_payloads_for_batch_request
                        (accumulate (map (make_hit (GA_MP_STANDARD_HIT_DETAILS prm)) df))
    /\ Permutation (s ++ f)
         (map prepare_payloads_for_batch_request
              (accumulate (map (make_hit (GA_MP_STANDARD_HIT_DETAILS prm)) df))).
Proof.
  intros Hnf. unfold submit_batches, accumulate.
  destruct (for_rows_answered prm env df Hnf (mkLocals 0 [] [] []) w)
    as [st' [w1 [flushed [Hrun [Hacc [Hpost Hperm]]]]]].
  simpl in Hacc, Hperm. rewrite Hacc.
  unfold bind at 1. rewrite Hrun.
  destruct (0 <? i st') eqn:E.
  - unfold bind at 1. unfold print at 1. simpl.
    unfold bind at 1. unfold print at 1. simpl.
    set (w2 := mkWorld _ _ _ _ _ _).
    set (body := prepare_payloads_for_batch_request (payload_list st')).
    destruct (answered env (List.length (posted w2)) body Hnf) as [code Hcode].
    destruct (send_mp_hit_answered env body (success_requests st')
                (failed_requests st') w2 code Hcode) as [w3 [Hsend Hposted]].
    rewrite Hsend.
    destruct (in_range 200 299 code); eexists _, _, w3;
      (split; [reflexivity|]); rewrite Hposted; subst w2; simpl;
      rewrite Hpost, map_app, <- app_assoc; simpl; fold body; (split; [reflexivity|]).
    + rewrite <- app_assoc. simpl.
      eapply perm_trans; [apply Permutation_sym, Permutation_middle|].
      eapply perm_trans; [|apply Permutation_cons_append].
      apply perm_skip. exact Hperm.
    + rewrite app_assoc.
      apply Permutation_app_tail. exact Hperm.
  - exists (success_requests st'), (failed_requests st'), w1.
    unfold ret. rewrite app_nil_r. repeat split; assumption.
Qed.

Lemma in_range_200_299 (code : Z) :
  in_range 200 299 code = ((200 <=? code) && (code <=? 298))%Z.
Proof.
  unfold in_range. f_equal.
  destruct (code <? 299)%Z eqn:E1; destruct (code <=? 298)%Z eqn:E2; try reflexivity; lia.
Qed.

(** C2.  What the submitter does with the status code of an answered POST:
    a code from 200 to 298 files the payload under the successes, every other
    code, 299 among them, under the failures, and no code makes the call
    raise.  Line 165 tests [status_code not in range(200, 299)], and the range
    stops before 299. *)
Theorem send_mp_hit_classifies (env : Collab) (payload : string)
        (s f : list string) (w : World) (code : Z) :
  endpoint env (List.length (posted w)) payload = Ret code ->
  fst (send_mp_hit env payload s f w)
  = Ret (if ((200 <=? code) && (code <=? 298))%Z
         then (s ++ [payload], f) else (s, f ++ [payload])).
Proof.
  intros H.
  destruct (send_mp_hit_answered env payload s f w code H) as [w' [Hrun _]].
  rewrite Hrun. simpl. now rewrite in_range_200_299.
Qed.

Lemma send_mp_hit_classifies_witness :
  fst (send_mp_hit (mkCollab (Ret []) (Ret tt) (fun _ _ => Ret 299%Z)
                             (fun _ => Ret tt) (fun _ => Ret 202%Z) (fun _ => "t"%string))
                   "v=1&cid=7" ["ok"%string] [] empty_world)
  = Ret (["ok"%string], ["v=1&cid=7"%string]).
Proof.
  apply (send_mp_hit_classifies
           (mkCollab (Ret []) (Ret tt) (fun _ _ => Ret 299%Z)
                     (fun _ => Ret tt) (fun _ => Ret 202%Z) (fun _ => "t"%string))
           "v=1&cid=7" ["ok"%string] [] empty_world 299%Z).
  reflexivity.
Defined.

(** The number of batches for [n] hits. *)
Lemma ceil_div_20 (n : nat) :
  (n + 19) / 20 = n / 20 + (if 0 <? n mod 20 then 1 else 0).
Proof.
  pose proof (Nat.div_mod_eq n 20) as Hn.
  pose proof (Nat.mod_upper_bound n 20 ltac:(lia)) as Hr.
  set (q := n / 20) in *. set (r := n mod 20) in *.
  replace (n + 19) with ((r + 19) + q * 20) by lia.
  rewrite Nat.div_add by lia.
  destruct r as [|r'].
  - simpl. lia.
  - replace (0 <? S r') with true by (symmetry; now apply Nat.ltb_lt; lia).
    replace (S r' + 19) with (r' + 1 * 20) by lia.
    rewrite Nat.div_add by lia. rewrite Nat.div_small by lia. lia.
Qed.

(** What line 235 onwards does with the two lists. *)
Lemma write_to_ga_via_mp_report (prm : Params) (env : Collab) (df : list Row)
      (w w' : World) (s f : list string) :
  submit_batches prm env df w = (Ret (s, f), w') ->
  stdout (snd (write_to_ga_via_mp prm env df w)) = stdout w' ++ [report_line s f]
  /\ fst (write_to_ga_via_mp prm env df w)
     = match f with
       | [] => Ret tt
       | _ :: _ => Raise (Exn "TypeError"
                              ("can only concatenate str (not " ++ dquote ++ "list"
                                 ++ dquote ++ ") to str")%string)
       end.
Proof.
  intros H. unfold write_to_ga_via_mp, bind. rewrite H.
  destruct f; simpl; split; reflexivity.
Qed.

(** C6, as the code has it.  In a run of the batch driver in which every
    POST is answered, each batch the accumulator forms is POSTed once, in
    order, and its payload is filed under exactly one of the two lists, so
    when the report is reached the two lists together hold
    ceil(totalHits / 20) payloads, and the report line prints their
    lengths. *)
Theorem payloads_partition (prm : Params) (env : Collab) (df : list Row) (w : World) :
  no_transport_fault env ->
  let batches := accumulate (map (make_hit (GA_MP_STANDARD_HIT_DETAILS prm)) df) in
  exists s f w',
    submit_batches prm env df w = (Ret (s, f), w')
    /\ posted w' = posted w ++ map prepare_payloads_for_batch_request batches
    /\ Permutation (s ++ f) (map prepare_payloads_for_batch_request batches)
    /\ List.length s + List.length f = (List.length df + 19) / 20
    /\ stdout (snd (write_to_ga_via_mp prm env df w)) = stdout w' ++ [report_line s f].
Proof.
  intros Hnf batches.
  destruct (submit_batches_answered prm env df w Hnf) as [s [f [w' [Hrun [Hpost Hperm]]]]].
  exists s, f, w'. fold batches in Hpost, Hperm.
  repeat split; try assumption.
  - rewrite <- length_app, (Permutation_length Hperm), length_map.
    subst batches.
    rewrite accumulate_count, length_map. symmetry. apply ceil_div_20.
  - apply (write_to_ga_via_mp_report prm env df w w' s f Hrun).
Qed.

(* ------------------------------------------------------------------ *)
(** ** Concrete runs *)

Lemma payloads_partition_witness :
  exists s f w',
    submit_batches (sample_params "mp" false false) env_middle_failure
                   (repeat sample_row 45) empty_world = (Ret (s, f), w')
    /\ posted w' = posted empty_world
                   ++ map prepare_payloads_for_batch_request
                        (accumulate
                           (map (make_hit (GA_MP_STANDARD_HIT_DETAILS
                                             (sample_params "mp" false false)))
                                (repeat sample_row 45)))
    /\ Permutation (s ++ f)
         (map prepare_payloads_for_batch_request
              (accumulate
                 (map (make_hit (GA_MP_STANDARD_HIT_DETAILS
                                   (sample_params "mp" false false)))
                      (repeat sample_row 45))))
    /\ List.length s + List.length f = (List.length (repeat sample_row 45) + 19) / 20
    /\ stdout (snd (write_to_ga_via_mp (sample_params "mp" false false)
                                       env_middle_failure
                                       (repeat sample_row 45) empty_world))
       = stdout w' ++ [report_line s f].
Proof.
  apply (payloads_partition (sample_params "mp" false false) env_middle_failure
                            (repeat sample_row 45) empty_world).
  intros n body. simpl. destruct (n =? 1); reflexivity.
Defined.

(** C6, as stated, fails on a run whose first POST ends in a transport
    fault: three batches are due for 45 hits, one body is POSTed, and the
    driver is left by the fault, with no payload filed under either list. *)
Lemma partition_lost_on_transport_fault :
  fst (submit_batches (sample_params "mp" false false) env_transport_fault
                      (repeat sample_row 45) empty_world)
  = Raise (Exn "ConnectionError" "Connection aborted.")
  /\ List.length (posted (snd (submit_batches (sample_params "mp" false false)
                                 env_transport_fault
                                 (repeat sample_row 45) empty_world))) = 1
  /\ (List.length (repeat sample_row 45) + 19) / 20 = 3.
Proof. vm_compute. repeat split. Qed.

(** C1.  45 hits, the middle batch answered with 500: the three batches
    of 20, 20 and 5 hits are all POSTed and the report line shows 2
    successes and 1 failure; then line 239 adds a list to a string, which
    raises TypeError, so the flow does not complete and the controller
    returns an ERROR outcome carrying that error's text. *)
Theorem middle_batch_failure_ends_in_error :
  let prm := sample_params "mp" false false in
  let run := trigger_workflow prm env_middle_failure empty_world in
  map (@List.length Dict)
      (accumulate (map (make_hit (GA_MP_STANDARD_HIT_DETAILS prm)) (repeat sample_row 45)))
  = [20; 20; 5]
  /\ posted (snd run)
     = map prepare_payloads_for_batch_request
           (accumulate (map (make_hit (GA_MP_STANDARD_HIT_DETAILS prm))
                            (repeat sample_row 45)))
  /\ last (stdout (snd run)) ""%string
     = "Completed all GA calls. Total successful batches:  2 and failed batches: 1"%string
  /\ fst (write_to_ga_via_mp prm env_middle_failure (repeat sample_row 45) empty_world)
     = Raise (Exn "TypeError"
                  ("can only concatenate str (not " ++ dquote ++ "list" ++ dquote
                     ++ ") to str")%string)
  /\ fst run
     = Ret ("2020-06-01 10:00:00,ERROR,can only concatenate str (not "
              ++ dquote ++ "list" ++ dquote ++ ") to str")%string.
Proof. vm_compute. repeat split. Qed.

(** Whenever some batch of a run was filed as failed, line 239 raises. *)
Lemma failed_batch_raises (prm : Params) (env : Collab) (df : list Row)
      (w w' : World) (s f : list string) (p : string) :
  submit_batches prm env df w = (Ret (s, p :: f), w') ->
  fst (write_to_ga_via_mp prm env df w)
  = Raise (Exn "TypeError"
               ("can only concatenate str (not " ++ dquote ++ "list" ++ dquote
                  ++ ") to str")%string).
Proof.
  intros H. now destruct (write_to_ga_via_mp_report prm env df w w' s (p :: f) H).
Qed.

(* ------------------------------------------------------------------ *)
(** ** The retry executor *)

(** The loop is entered with [remaining + attempt_number] equal to the
    maximum, so it stops on [remaining = 0] exactly when the stop rule of the
    package holds. *)
Lemma remaining_zero_is_stop (args : RetryArgs) (remaining attempt_number : nat) :
  remaining + attempt_number = Nat.max 1 (stop_max_attempt_number args) ->
  1 <= attempt_number ->
  (remaining = 0 <-> stop_after_attempt args attempt_number = true).
Proof.
  unfold stop_after_attempt. intros H H1. rewrite Nat.leb_le. lia.
Qed.

Lemma retry_enters_with_invariant (args : RetryArgs) :
  (stop_max_attempt_number args - 1) + 1 = Nat.max 1 (stop_max_attempt_number args).
Proof. lia. Qed.

Lemma attempt_world_from_S {A} (args : RetryArgs) (fn : M A) (first : nat)
      (w : World) (j : nat) :
  attempt_world_from args fn first w (S j)
  = snd (time_sleep (exponential_sleep args (first + j))
                    (snd (fn (attempt_world_from args fn first w j)))).
Proof. reflexivity. Qed.

Lemma attempt_world_from_shift {A} (args : RetryArgs) (fn : M A) (first : nat)
      (w : World) (j : nat) :
  attempt_world_from args fn first w (S j)
  = attempt_world_from args fn (S first)
      (snd (time_sleep (exponential_sleep args first) (snd (fn w)))) j.
Proof.
  induction j as [|j IH].
  - simpl. now rewrite Nat.add_0_r.
  - change (attempt_world_from args fn first w (S (S j)))
      with (snd (time_sleep (exponential_sleep args (first + S j))
                            (snd (fn (attempt_world_from args fn first w (S j)))))).
    rewrite IH. simpl. now rewrite Nat.add_succ_r.
Qed.

(** The loop returns what its first successful attempt returns, or what the
    last attempt it is allowed raises. *)
Lemma call_from_attempts {A} (args : RetryArgs) (fn : M A) (remaining : nat) :
  forall (first : nat) (w : World),
  exists k,
    k <= remaining
    /\ call_from args remaining first fn w = fn (attempt_world_from args fn first w k)
    /\ (forall j, j < k ->
          is_raise (fst (fn (attempt_world_from args fn first w j))) = true)
    /\ (is_raise (fst (fn (attempt_world_from args fn first w k))) = true ->
        k = remaining).
Proof.
  induction remaining as [|r IH]; intros first w.
  - exists 0. simpl. split; [lia|]. split; [|split].
    + destruct (fn w) as [[a|e] w1]; reflexivity.
    + intros j Hj. lia.
    + reflexivity.
  - simpl. destruct (fn w) as [[a|e] w1] eqn:E.
    + exists 0. simpl. rewrite E. split; [lia|]. split; [reflexivity|]. split.
      * intros j Hj. lia.
      * discriminate.
    + destruct (IH (S first) (snd (time_sleep (exponential_sleep args first) w1)))
        as [k [Hk [Hrun [Hbefore Hlast]]]].
      assert (Hshift : forall j,
                 attempt_world_from args fn first w (S j)
                 = attempt_world_from args fn (S first)
                     (snd (time_sleep (exponential_sleep args first) w1)) j).
      { intros j. rewrite attempt_world_from_shift. now rewrite E. }
      exists (S k). rewrite Hshift. split; [lia|]. split; [exact Hrun|]. split.
      * intros [|j] Hj.
        -- simpl. now rewrite E.
        -- rewrite Hshift. apply Hbefore. lia.
      * intros H. f_equal. now apply Hlast.
Qed.

(** The waits of the two decorated functions. *)
Lemma exponential_sleep_min (n : nat) :
  exponential_sleep retry_args n = Z.min (1000 * 2 ^ Z.of_nat n) 10000.
Proof.
  unfold exponential_sleep, retry_args.
  cbn [wait_exponential_multiplier wait_exponential_max].
  assert (H : (0 < 2 ^ Z.of_nat n)%Z) by (apply Z.pow_pos_nonneg; lia).
  rewrite Z.gtb_ltb.
  destruct (Z.ltb_spec 10000 (1000 * 2 ^ Z.of_nat n)) as [H1|H1].
  - change (10000 <? 0)%Z with false. lia.
  - destruct (Z.ltb_spec (1000 * 2 ^ Z.of_nat n) 0); lia.
Qed.

(** What the attempts of a retried operation leave behind, for an operation
    that logs each call once under [cnt] and does not sleep itself. *)
Lemma retry_counts {A} (fn : M A) (cnt : World -> nat) :
  (forall w, cnt (snd (fn w)) = S (cnt w)) ->
  (forall w, slept (snd (fn w)) = slept w) ->
  (forall ms w, cnt (snd (time_sleep ms w)) = cnt w) ->
  forall w,
  exists k,
    k < 5
    /\ retry retry_args fn w = fn (attempt_world retry_args fn w k)
    /\ (forall j, j < k -> is_raise (fst (fn (attempt_world retry_args fn w j))) = true)
    /\ (is_raise (fst (retry retry_args fn w)) = true -> k = 4)
    /\ cnt (snd (retry retry_args fn w)) = cnt w + S k
    /\ slept (snd (retry retry_args fn w))
       = slept w ++ firstn k [2000; 4000; 8000; 10000]%Z.
Proof.
  intros Hcnt Hslept Hsleep w.
  destruct (call_from_attempts retry_args fn 4 1 w) as [k [Hk [Hrun [Hbefore Hlast]]]].
  fold (attempt_world retry_args fn w k) in Hrun, Hlast.
  assert (Hw : forall j, j <= 4 ->
             cnt (attempt_world retry_args fn w j) = cnt w + j
             /\ slept (attempt_world retry_args fn w j)
                = slept w ++ firstn j [2000; 4000; 8000; 10000]%Z).
  { induction j as [|j IHj]; intros Hj.
    - simpl. now rewrite Nat.add_0_r, app_nil_r.
    - destruct (IHj ltac:(lia)) as [Hc Hs].
      unfold attempt_world in *. rewrite attempt_world_from_S.
      rewrite Hsleep, Hcnt, Hc. split; [lia|].
      unfold time_sleep. cbn [snd slept]. rewrite Hslept, Hs, <- app_assoc.
      f_equal.
      destruct j as [|[|[|[|j]]]]; try reflexivity; lia. }
  exists k. unfold retry. change (stop_max_attempt_number retry_args - 1) with 4.
  rewrite Hrun. destruct (Hw k Hk) as [Hc Hs].
  split; [lia|]. split; [reflexivity|]. split; [exact Hbefore|].
  split; [exact Hlast|]. split.
  - rewrite Hcnt, Hc. lia.
  - now rewrite Hslept.
Qed.

Lemma call_from_step {A} (args : RetryArgs) (fn : M A) (r first : nat) (w : World) :
  call_from args (S r) first fn w
  = match fn w with
    | (Ret a, w1) => (Ret a, w1)
    | (Raise e, w1) =>
        call_from args r (S first) fn
                  (snd (time_sleep (exponential_sleep args first) w1))
    end.
Proof. reflexivity. Qed.

(** The loop leaves alone what neither the operation nor the sleep touches. *)
Lemma call_from_keeps {A X} (proj : World -> X) (args : RetryArgs) (fn : M A) :
  (forall ms w, proj (snd (time_sleep ms w)) = proj w) ->
  (forall w, proj (snd (fn w)) = proj w) ->
  forall remaining first w, proj (snd (call_from args remaining first fn w)) = proj w.
Proof.
  intros Hsleep Hfn.
  induction remaining as [|r IH]; intros first w; cbn [call_from];
    pose proof (Hfn w) as H; destruct (fn w) as [[a|e] w1]; cbn [snd] in *;
    try exact H.
  rewrite IH. rewrite <- H. apply (Hsleep _ w1).
Qed.

(** The loop only appends where the operation only appends. *)
Lemma call_from_extends {A X} (proj : World -> list X) (args : RetryArgs) (fn : M A) :
  (forall ms w, proj (snd (time_sleep ms w)) = proj w) ->
  (forall w, exists rest, proj (snd (fn w)) = proj w ++ rest) ->
  forall remaining first w,
  exists rest, proj (snd (call_from args remaining first fn w)) = proj w ++ rest.
Proof.
  intros Hsleep Hfn.
  induction remaining as [|r IH]; intros first w; cbn [call_from];
    destruct (Hfn w) as [rest H]; destruct (fn w) as [[a|e] w1]; cbn [snd] in *;
    try (now exists rest).
  destruct (IH (S first) (snd (time_sleep (exponential_sleep args first) w1)))
    as [rest' H'].
  exists (rest ++ rest'). rewrite H'. rewrite (Hsleep _ w1), H.
  now rewrite app_assoc.
Qed.

(** One attempt of the log write: one INSERT, no sleep, no mail. *)
Lemma write_to_bq_logs_body_effect (env : Collab) (status message : string) (w : World) :
  log_rows (snd (write_to_bq_logs_body env status message w))
  = log_rows w ++ [(clock env (clock_reads w), status, message)]
  /\ slept (snd (write_to_bq_logs_body env status message w)) = slept w
  /\ mails (snd (write_to_bq_logs_body env status message w)) = mails w.
Proof.
  unfold write_to_bq_logs_body, bind, now, bq_query. simpl.
  destruct (bq_insert env (List.length (log_rows w))); simpl; repeat split.
Qed.

(** One attempt of the mail: one send, no sleep, no INSERT. *)
Lemma send_email_body_effect (env : Collab) (error_message : string) (w : World) :
  mails (snd (send_email_body env error_message w))
  = mails w ++ [(clock env (clock_reads w), error_message)]
  /\ slept (snd (send_email_body env error_message w)) = slept w
  /\ log_rows (snd (send_email_body env error_message w)) = log_rows w.
Proof.
  unfold send_email_body, bind, now, sg_send. simpl.
  destruct (sendgrid env (List.length (mails w))) as [code|e]; simpl;
    [destruct (first_digit_is_2 code)|]; simpl; repeat split.
Qed.

(** The log write makes its first attempt whatever happens next, and sends
    no mail. *)
Lemma write_to_bq_logs_effect (env : Collab) (status message : string) (w : World) :
  (exists rest, log_rows (snd (write_to_bq_logs env status message w))
                = log_rows w ++ (clock env (clock_reads w), status, message) :: rest)
  /\ mails (snd (write_to_bq_logs env status message w)) = mails w.
Proof.
  split.
  - unfold write_to_bq_logs, retry.
    change (stop_max_attempt_number retry_args - 1) with 4.
    rewrite call_from_step.
    destruct (write_to_bq_logs_body_effect env status message w) as [Hrow _].
    destruct (write_to_bq_logs_body env status message w) as [[a|e] w1];
      cbn [snd] in *.
    + exists []. exact Hrow.
    + destruct (call_from_extends log_rows retry_args
                  (write_to_bq_logs_body env status message)
                  (fun _ _ => eq_refl)
                  (fun w0 => ex_intro _ _
                     (proj1 (write_to_bq_logs_body_effect env status message w0)))
                  3 2 (snd (time_sleep (exponential_sleep retry_args 1) w1)))
        as [rest H].
      exists rest. rewrite H. cbn [time_sleep snd log_rows]. rewrite Hrow.
      now rewrite <- app_assoc.
  - apply call_from_keeps; [reflexivity|].
    intros w0. apply write_to_bq_logs_body_effect.
Qed.

(** The mail makes its first attempt whatever happens next, and writes no
    log row. *)
Lemma send_email_effect (env : Collab) (error_message : string) (w : World) :
  (exists rest, mails (snd (send_email env error_message w))
                = mails w ++ (clock env (clock_reads w), error_message) :: rest)
  /\ log_rows (snd (send_email env error_message w)) = log_rows w.
Proof.
  split.
  - unfold send_email, retry.
    change (stop_max_attempt_number retry_args - 1) with 4.
    rewrite call_from_step.
    destruct (send_email_body_effect env error_message w) as [Hrow _].
    destruct (send_email_body env error_message w) as [[a|e] w1];
      cbn [snd] in *.
    + exists []. exact Hrow.
    + destruct (call_from_extends mails retry_args
                  (send_email_body env error_message)
                  (fun _ _ => eq_refl)
                  (fun w0 => ex_intro _ _
                     (proj1 (send_email_body_effect env error_message w0)))
                  3 2 (snd (time_sleep (exponential_sleep retry_args 1) w1)))
        as [rest H].
      exists rest. rewrite H. cbn [time_sleep snd mails]. rewrite Hrow.
      now rewrite <- app_assoc.
  - apply call_from_keeps; [reflexivity|].
    intros w0. apply send_email_body_effect.
Qed.

(** C3, as the code has it.  The executor makes at most 5 attempts; it
    returns the result of the first attempt that succeeds, making no further
    attempt, and otherwise ends as its fifth attempt ends, raising that
    attempt's exception.  Attempt 1 starts at once; before attempt k >= 2 it
    sleeps min(1000 * 2^(k-1), 10000) ms, that is 2000, 4000, 8000 and 10000
    ms before attempts 2, 3, 4 and 5.  For the log write and the mail, each
    attempt is one INSERT or one send, so a call leaves at most 5 of them and
    the waits between them. *)
Theorem retry_executor_schedule (env : Collab) (status message error_message : string)
        (w : World) :
  (forall (A : Type) (fn : M A) (w0 : World),
      exists k,
        k < 5
        /\ retry retry_args fn w0 = fn (attempt_world retry_args fn w0 k)
        /\ (forall j, j < k ->
              is_raise (fst (fn (attempt_world retry_args fn w0 j))) = true)
        /\ (is_raise (fst (retry retry_args fn w0)) = true -> k = 4))
  /\ (forall (A : Type) (fn : M A) (w0 : World),
         attempt_world retry_args fn w0 0 = w0
         /\ forall j,
             attempt_world retry_args fn w0 (S j)
             = snd (time_sleep (Z.min (1000 * 2 ^ Z.of_nat (S j)) 10000)
                               (snd (fn (attempt_world retry_args fn w0 j)))))
  /\ map (exponential_sleep retry_args) [1; 2; 3; 4] = [2000; 4000; 8000; 10000]%Z
  /\ (exists k,
         k < 5
         /\ List.length (log_rows (snd (write_to_bq_logs env status message w)))
            = List.length (log_rows w) + S k
         /\ slept (snd (write_to_bq_logs env status message w))
            = slept w ++ firstn k [2000; 4000; 8000; 10000]%Z
         /\ (is_raise (fst (write_to_bq_logs env status message w)) = true -> k = 4))
  /\ (exists k,
         k < 5
         /\ List.length (mails (snd (send_email env error_message w)))
            = List.length (mails w) + S k
         /\ slept (snd (send_email env error_message w))
            = slept w ++ firstn k [2000; 4000; 8000; 10000]%Z
         /\ (is_raise (fst (send_email env error_message w)) = true -> k = 4)).
Proof.
  split; [|split; [|split; [|split]]].
  - intros A fn w0.
    destruct (call_from_attempts retry_args fn 4 1 w0) as [k [Hk [Hrun [Hbefore Hlast]]]].
    exists k. unfold retry, attempt_world.
    change (stop_max_attempt_number retry_args - 1) with 4.
    rewrite Hrun. split; [lia|]. split; [reflexivity|]. split; assumption.
  - intros A fn w0. split; [reflexivity|]. intros j.
    unfold attempt_world. rewrite attempt_world_from_S, exponential_sleep_min.
    reflexivity.
  - reflexivity.
  - destruct (retry_counts (write_to_bq_logs_body env status message)
                (fun w0 => List.length (log_rows w0))) with (w := w)
      as [k [Hk [_ [_ [Hlast [Hcnt Hslept]]]]]].
    + intros w0. destruct (write_to_bq_logs_body_effect env status message w0) as [H _].
      rewrite H, length_app. simpl. lia.
    + intros w0. apply write_to_bq_logs_body_effect.
    + reflexivity.
    + exists k. repeat split; assumption.
  - destruct (retry_counts (send_email_body env error_message)
                (fun w0 => List.length (mails w0))) with (w := w)
      as [k [Hk [_ [_ [Hlast [Hcnt Hslept]]]]]].
    + intros w0. destruct (send_email_body_effect env error_message w0) as [H _].
      rewrite H, length_app. simpl. lia.
    + intros w0. apply send_email_body_effect.
    + reflexivity.
    + exists k. repeat split; assumption.
Qed.

(** C3, as stated, fails: when every attempt of the log write fails, the
    executor sleeps 2000, 4000, 8000 and 10000 ms between the five attempts,
    not 1000, 2000, 4000 and 8000 ms. *)
Lemma retry_waits_start_at_2000 :
  slept (snd (write_to_bq_logs env_side_effects_down "ERROR" "boom" empty_world))
  = [2000; 4000; 8000; 10000]%Z
  /\ List.length (log_rows (snd (write_to_bq_logs env_side_effects_down
                                   "ERROR" "boom" empty_world))) = 5
  /\ exponential_sleep retry_args 1 = 2000%Z
  /\ Z.min (1000 * 2 ^ (2 - 2)) 10000 = 1000%Z.
Proof. vm_compute. repeat split. Qed.

(* ------------------------------------------------------------------ *)
(** ** The controller *)

Lemma sends_no_mail_bind {A B} (m : M A) (k : A -> M B) :
  sends_no_mail m -> (forall a, sends_no_mail (k a)) -> sends_no_mail (bind m k).
Proof.
  intros Hm Hk w. unfold bind. specialize (Hm w).
  destruct (m w) as [[a|e] w1]; cbn [snd] in *.
  - now rewrite Hk.
  - exact Hm.
Qed.

Lemma sends_no_mail_send_mp_hit (env : Collab) (p : string) (s f : list string) :
  sends_no_mail (send_mp_hit env p s f).
Proof.
  intros w. unfold send_mp_hit, bind, print, session_send, ret. simpl.
  destruct (endpoint env (List.length (posted w)) p) as [code|e]; simpl;
    [destruct (in_range 200 299 code)|]; reflexivity.
Qed.

Lemma sends_no_mail_for_rows (prm : Params) (env : Collab) (df : list Row) :
  forall st, sends_no_mail (for_rows prm env df st).
Proof.
  induction df as [|row df IH]; intros st.
  - intros w. reflexivity.
  - simpl. apply sends_no_mail_bind; [|intros st'; apply IH].
    unfold loop_body. destruct ((i st + 1) mod 20 =? 0).
    + apply sends_no_mail_bind; [intros w; reflexivity|]. intros _.
      apply sends_no_mail_bind; [apply sends_no_mail_send_mp_hit|].
      intros lists w. reflexivity.
    + intros w. reflexivity.
Qed.

Lemma sends_no_mail_flow (prm : Params) (env : Collab) : sends_no_mail (flow prm env).
Proof.
  unfold flow. apply sends_no_mail_bind; [intros w; reflexivity|]. intros df.
  destruct (GA_IMPORT_METHOD prm =? "di")%string; [intros w; reflexivity|].
  destruct (GA_IMPORT_METHOD prm =? "mp")%string; [|intros w; reflexivity].
  unfold write_to_ga_via_mp.
  apply sends_no_mail_bind.
  - unfold submit_batches.
    apply sends_no_mail_bind; [apply sends_no_mail_for_rows|]. intros st.
    destruct (0 <? i st); [|intros w; reflexivity].
    apply sends_no_mail_bind; [intros w; reflexivity|]. intros _.
    apply sends_no_mail_bind; [intros w; reflexivity|]. intros _.
    apply sends_no_mail_send_mp_hit.
  - intros lists.
    apply sends_no_mail_bind; [intros w; reflexivity|]. intros _.
    destruct (snd lists); intros w; reflexivity.
Qed.

Lemma sends_no_mail_log (env : Collab) (b : bool) (status message : string) :
  sends_no_mail (when b (write_to_bq_logs env status message)).
Proof.
  destruct b; intros w; [apply write_to_bq_logs_effect | reflexivity].
Qed.

(** The controller, by the way its [try] ends. *)
Lemma trigger_workflow_run (prm : Params) (env : Collab) (w : World) :
  trigger_workflow prm env w
  = match try_block prm env (snd (now env w)) with
    | (Ret _, w2) => (Ret (clock env (clock_reads w) ++ ",SUCCESS")%string, w2)
    | (Raise e, w2) => on_error prm env (clock env (clock_reads w)) e w2
    end.
Proof.
  unfold trigger_workflow, try_block, try_except, bind, now, ret. cbn [snd].
  set (w1 := mkWorld _ _ _ _ _ _).
  destruct (flow prm env w1) as [[[]|e] w2]; [|reflexivity].
  destruct (when (ENABLED_LOGGING prm) (write_to_bq_logs env "SUCCESS" "") w2)
    as [[[]|e] w3]; reflexivity.
Qed.

(** The handler, by the way its two side effects end. *)
Lemma on_error_run (prm : Params) (env : Collab) (ts : string) (e : PyExn) (w : World) :
  on_error prm env ts e w
  = match when (ENABLED_LOGGING prm) (write_to_bq_logs env "ERROR" (exn_str e)) w with
    | (Raise e', w3) => (Raise e', w3)
    | (Ret _, w3) =>
        match when (ENABLED_EMAIL prm) (send_email env (exn_str e)) w3 with
        | (Raise e', w4) => (Raise e', w4)
        | (Ret _, w4) => (Ret (ts ++ ",ERROR," ++ exn_str e)%string, w4)
        end
    end.
Proof.
  unfold on_error, bind, ret.
  destruct (when (ENABLED_LOGGING prm) (write_to_bq_logs env "ERROR" (exn_str e)) w)
    as [[[]|e1] w3]; [|reflexivity].
  destruct (when (ENABLED_EMAIL prm) (send_email env (exn_str e)) w3)
    as [[[]|e2] w4]; reflexivity.
Qed.

(** An unknown mode makes the flow raise the configuration error, once the
    rows are read. *)
Lemma flow_unknown_mode (prm : Params) (env : Collab) (df : list Row) (w : World) :
  GA_IMPORT_METHOD prm <> "di"%string ->
  GA_IMPORT_METHOD prm <> "mp"%string ->
  query_result env = Ret df ->
  flow prm env w = (Raise (Exn "Exception" "GA Export Method not found."), w).
Proof.
  intros Hdi Hmp Hq. unfold flow, bind. rewrite Hq.
  apply String.eqb_neq in Hdi, Hmp. rewrite Hdi, Hmp. reflexivity.
Qed.

Lemma append_inj_l (s a b : string) : (s ++ a)%string = (s ++ b)%string -> a = b.
Proof.
  induction s as [|c s IH]; simpl; intros H; [exact H|].
  injection H as H. now apply IH.
Qed.

(** C8, as the code has it.  For a delivery mode other than "di" and "mp" the
    [try] always raises and the controller runs its error handler: with the
    configuration error "GA Export Method not found." once the rows are
    read, and with the failure of the read when reading the rows fails.
    Every outcome it returns is "<timestamp>,ERROR,<that text>", and it
    returns one whenever the log write and the mail, where enabled, do not
    exhaust their attempts. *)
Theorem unknown_mode_is_error (prm : Params) (env : Collab) (w : World) :
  GA_IMPORT_METHOD prm <> "di"%string ->
  GA_IMPORT_METHOD prm <> "mp"%string ->
  let ts := clock env (clock_reads w) in
  let w1 := snd (now env w) in
  let e := match query_result env with
           | Ret _ => Exn "Exception" "GA Export Method not found."
           | Raise read_failure => read_failure
           end in
  let logged := when (ENABLED_LOGGING prm) (write_to_bq_logs env "ERROR" (exn_str e)) w1 in
  trigger_workflow prm env w = on_error prm env ts e w1
  /\ (forall s, fst (trigger_workflow prm env w) = Ret s ->
                s = (ts ++ ",ERROR," ++ exn_str e)%string)
  /\ (fst logged = Ret tt ->
      fst (when (ENABLED_EMAIL prm) (send_email env (exn_str e)) (snd logged)) = Ret tt ->
      fst (trigger_workflow prm env w) = Ret (ts ++ ",ERROR," ++ exn_str e)%string)
  /\ (forall df, query_result env = Ret df ->
                 (ts ++ ",ERROR," ++ exn_str e)%string
                 = (ts ++ ",ERROR,GA Export Method not found.")%string)
  /\ (forall read_failure, query_result env = Raise read_failure ->
                           (ts ++ ",ERROR," ++ exn_str e)%string
                           = (ts ++ ",ERROR," ++ exn_str read_failure)%string).
Proof.
  intros Hdi Hmp ts w1 e logged.
  assert (Hflow : flow prm env w1 = (Raise e, w1)).
  { subst e. unfold flow, bind.
    destruct (query_result env) as [df|read_failure] eqn:Hq; [|reflexivity].
    apply String.eqb_neq in Hdi, Hmp. rewrite Hdi, Hmp. reflexivity. }
  assert (Hrun : trigger_workflow prm env w = on_error prm env ts e w1).
  { rewrite trigger_workflow_run. unfold try_block, bind. fold w1.
    rewrite Hflow. reflexivity. }
  split; [exact Hrun|].
  split; [|split; [|split]].
  - rewrite Hrun, on_error_run. fold logged.
    destruct logged as [[[]|e1] w3]; [|discriminate].
    destruct (when (ENABLED_EMAIL prm) (send_email env (exn_str e)) w3)
      as [[[]|e2] w4]; [|discriminate].
    cbn [fst]. intros s Hs. now injection Hs as <-.
  - rewrite Hrun, on_error_run. fold logged.
    destruct logged as [[[]|e1] w3]; cbn [fst snd]; [|discriminate].
    destruct (when (ENABLED_EMAIL prm) (send_email env (exn_str e)) w3)
      as [[[]|e2] w4]; cbn [fst]; [reflexivity | discriminate].
  - intros df Hq. subst e. now rewrite Hq.
  - intros read_failure Hq. subst e. now rewrite Hq.
Qed.

Lemma unknown_mode_is_error_witness :
  fst (trigger_workflow (sample_params "ftp" true true) env_middle_failure empty_world)
  = Ret "2020-06-01 10:00:00,ERROR,GA Export Method not found."%string.
Proof.
  apply (unknown_mode_is_error (sample_params "ftp" true true) env_middle_failure
                               empty_world);
    try discriminate; reflexivity.
Defined.

(** C8, as stated, fails in two ways.  With an unknown mode and the log
    table refusing every attempt, the exception of the fifth attempt leaves
    the controller and no outcome is returned.  And when reading the rows
    already fails, the outcome carries that failure's text, whatever the
    mode. *)
Lemma unknown_mode_escapes_or_differs :
  fst (trigger_workflow (sample_params "ftp" true false) env_side_effects_down empty_world)
  = Raise (Exn "ServiceUnavailable" "503 backend error")
  /\ fst (trigger_workflow (sample_params "ftp" false false)
            (mkCollab (Raise (Exn "BadRequest" "400 Syntax error")) (Ret tt)
                      (fun _ _ => Ret 200%Z) (fun _ => Ret tt) (fun _ => Ret 202%Z)
                      (fun _ => "2020-06-01 10:00:00"%string))
            empty_world)
     = Ret "2020-06-01 10:00:00,ERROR,400 Syntax error"%string.
Proof. vm_compute. split; reflexivity. Qed.




(** C10, as the code has it.  When the flow completes, logging is on and the
    log write of the SUCCESS row exhausts its five attempts with exception
    [e], the controller does not return a SUCCESS outcome: the handler runs
    with [e], so the log write of an ERROR row with the text of [e] is
    attempted, then, if that returns and mail is on, the mail with the same
    text; every outcome returned is "<timestamp>,ERROR,<text of e>", and one
    is returned whenever these two side effects do not exhaust their
    attempts. *)
Theorem success_log_failure_is_error (prm : Params) (env : Collab)
        (w w2 w3 : World) (e : PyExn) :
  ENABLED_LOGGING prm = true ->
  flow prm env (snd (now env w)) = (Ret tt, w2) ->
  write_to_bq_logs env "SUCCESS" "" w2 = (Raise e, w3) ->
  let ts := clock env (clock_reads w) in
  let run := trigger_workflow prm env w in
  let relogged := write_to_bq_logs env "ERROR" (exn_str e) w3 in
  run = on_error prm env ts e w3
  /\ fst run <> Ret (ts ++ ",SUCCESS")%string
  /\ (forall s, fst run = Ret s -> s = (ts ++ ",ERROR," ++ exn_str e)%string)
  /\ List.length (log_rows w3) = List.length (log_rows w2) + 5
  /\ (exists t rest, log_rows (snd run) = log_rows w3 ++ (t, "ERROR"%string, exn_str e) :: rest)
  /\ (fst relogged = Ret tt -> ENABLED_EMAIL prm = true ->
      exists t rest, mails (snd run) = mails w3 ++ (t, exn_str e) :: rest)
  /\ (fst relogged = Ret tt ->
      fst (when (ENABLED_EMAIL prm) (send_email env (exn_str e)) (snd relogged)) = Ret tt ->
      fst run = Ret (ts ++ ",ERROR," ++ exn_str e)%string).
Proof.
  intros Hlog Hflow Hfail ts run relogged.
  assert (Hrun : run = on_error prm env ts e w3).
  { unfold run. rewrite trigger_workflow_run. unfold try_block, bind.
    rewrite Hflow, Hlog. cbn [when]. rewrite Hfail. reflexivity. }
  assert (Hret : forall s, fst run = Ret s -> s = (ts ++ ",ERROR," ++ exn_str e)%string).
  { intros s. rewrite Hrun, on_error_run.
    destruct (when (ENABLED_LOGGING prm) (write_to_bq_logs env "ERROR" (exn_str e)) w3)
      as [[[]|e1] w4]; [|discriminate].
    destruct (when (ENABLED_EMAIL prm) (send_email env (exn_str e)) w4)
      as [[[]|e2] w5]; [|discriminate].
    cbn [fst]. intros H. now injection H as <-. }
  split; [exact Hrun|]. split; [|split; [exact Hret|]].
  { intros H. apply Hret in H. apply append_inj_l in H. discriminate H. }
  destruct (retry_counts (write_to_bq_logs_body env "SUCCESS" "")
              (fun w0 => List.length (log_rows w0))) with (w := w2)
    as [k [Hk [_ [_ [Hlast [Hcnt Hslept]]]]]].
  { intros w0. destruct (write_to_bq_logs_body_effect env "SUCCESS" "" w0) as [H _].
    rewrite H, length_app. simpl. lia. }
  { intros w0. apply write_to_bq_logs_body_effect. }
  { reflexivity. }
  fold (write_to_bq_logs env "SUCCESS" "") in Hlast, Hcnt, Hslept.
  rewrite Hfail in Hlast, Hcnt, Hslept. cbn [fst snd is_raise] in *.
  rewrite (Hlast eq_refl) in Hcnt.
  split; [exact Hcnt|].
  destruct (write_to_bq_logs_effect env "ERROR" (exn_str e) w3) as [[rest Hrows] Hmails].
  fold relogged in Hrows, Hmails.
  assert (Hshape : run
                   = match relogged with
                     | (Raise e', w4) => (Raise e', w4)
                     | (Ret _, w4) =>
                         match when (ENABLED_EMAIL prm) (send_email env (exn_str e)) w4 with
                         | (Raise e', w5) => (Raise e', w5)
                         | (Ret _, w5) => (Ret (ts ++ ",ERROR," ++ exn_str e)%string, w5)
                         end
                     end).
  { rewrite Hrun, on_error_run, Hlog. reflexivity. }
  clearbody relogged run.
  destruct relogged as [[[]|e1] w4]; cbn [fst snd] in *.
  - destruct (ENABLED_EMAIL prm) eqn:Hmail; cbn [when] in Hshape.
    + destruct (send_email_effect env (exn_str e) w4) as [[mrest Hm] Hl].
      assert (Hw : snd run = snd (send_email env (exn_str e) w4)).
      { rewrite Hshape. now destruct (send_email env (exn_str e) w4) as [[[]|e2] w5]. }
      split; [|split].
      * exists (clock env (clock_reads w3)), rest. now rewrite Hw, Hl.
      * intros _ _. exists (clock env (clock_reads w4)), mrest.
        now rewrite Hw, Hm, Hmails.
      * intros _. cbn [when]. rewrite Hshape.
        destruct (send_email env (exn_str e) w4) as [[[]|e2] w5]; cbn [fst];
          [reflexivity | discriminate].
    + unfold ret in Hshape. rewrite Hshape. cbn [fst snd].
      split; [|split].
      * now exists (clock env (clock_reads w3)), rest.
      * discriminate.
      * reflexivity.
  - rewrite Hshape. cbn [fst snd]. split; [|split].
    + now exists (clock env (clock_reads w3)), rest.
    + discriminate.
    + discriminate.
Qed.

Lemma success_log_failure_is_error_witness :
  fst (trigger_workflow (sample_params "mp" true true) env_log_recovers empty_world)
  = Ret "2020-06-01 10:00:00,ERROR,503 backend error"%string.
Proof.
  pose (prm := sample_params "mp" true true).
  pose (w2 := snd (flow prm env_log_recovers (snd (now env_log_recovers empty_world)))).
  pose (w3 := snd (write_to_bq_logs env_log_recovers "SUCCESS" "" w2)).
  assert (H1 : ENABLED_LOGGING prm = true) by reflexivity.
  assert (H2 : flow prm env_log_recovers (snd (now env_log_recovers empty_world))
               = (Ret tt, w2)) by (vm_compute; reflexivity).
  assert (H3 : write_to_bq_logs env_log_recovers "SUCCESS" "" w2
               = (Raise (Exn "ServiceUnavailable" "503 backend error"), w3))
    by (vm_compute; reflexivity).
  destruct (success_log_failure_is_error prm env_log_recovers empty_world w2 w3
              (Exn "ServiceUnavailable" "503 backend error") H1 H2 H3)
    as (_ & _ & _ & _ & _ & _ & H).
  apply H; vm_compute; reflexivity.
Defined.

(** C10, as stated, fails when the log table stays down: the flow completes,
    the log write of the SUCCESS row fails five times, the handler's log
    write of the ERROR row fails five times as well, and its exception leaves
    the controller: no mail is attempted although mail is on, and no outcome
    is returned. *)
Lemma relogging_fails_too :
  fst (flow (sample_params "mp" true true) env_side_effects_down
            (snd (now env_side_effects_down empty_world))) = Ret tt
  /\ fst (trigger_workflow (sample_params "mp" true true) env_side_effects_down empty_world)
     = Raise (Exn "ServiceUnavailable" "503 backend error")
  /\ map (fun row => snd (fst row))
         (log_rows (snd (trigger_workflow (sample_params "mp" true true)
                                          env_side_effects_down empty_world)))
     = ["SUCCESS"; "SUCCESS"; "SUCCESS"; "SUCCESS"; "SUCCESS";
        "ERROR"; "ERROR"; "ERROR"; "ERROR"; "ERROR"]%string
  /\ mails (snd (trigger_workflow (sample_params "mp" true true)
                                  env_side_effects_down empty_world)) = [].
Proof. vm_compute. repeat split. Qed.

(* ================================================================== *)
(** * Further properties *)

(* ------------------------------------------------------------------ *)
(** ** The bytes of a payload *)

Lemma string_forallb_app (p : ascii -> bool) (s t : string) :
  string_forallb p (s ++ t)%string = string_forallb p s && string_forallb p t.
Proof.
  induction s as [|c s IH]; simpl; [reflexivity|].
  now rewrite IH, andb_assoc.
Qed.

Lemma string_forallb_weaken (p q : ascii -> bool) (s : string) :
  (forall c, p c = true -> q c = true) ->
  string_forallb p s = true -> string_forallb q s = true.
Proof.
  intros Hpq. induction s as [|c s IH]; simpl; [reflexivity|].
  intros H. apply andb_true_iff in H as [Hc Hs].
  now rewrite (Hpq c Hc), IH.
Qed.

Lemma string_forallb_concat (p : ascii -> bool) (sep : string) (l : list string) :
  string_forallb p sep = true ->
  Forall (fun s => string_forallb p s = true) l ->
  string_forallb p (String.concat sep l) = true.
Proof.
  intros Hsep Hl. induction Hl as [|s l Hs Hl IH]; [reflexivity|].
  destruct l as [|t l]; [exact Hs|].
  change (String.concat sep (s :: t :: l))
    with (s ++ sep ++ String.concat sep (t :: l))%string.
  now rewrite !string_forallb_app, Hs, Hsep, IH.
Qed.

Lemma count_char_app (c : ascii) (s t : string) :
  count_char c (s ++ t)%string = count_char c s + count_char c t.
Proof.
  induction s as [|c' s IH]; simpl; [reflexivity|]. rewrite IH. lia.
Qed.

Lemma count_char_absent (p : ascii -> bool) (c : ascii) (s : string) :
  p c = false -> string_forallb p s = true -> count_char c s = 0.
Proof.
  intros Hc. induction s as [|c' s IH]; simpl; [reflexivity|].
  intros H. apply andb_true_iff in H as [Hc' Hs].
  rewrite (IH Hs). destruct (Ascii.eqb_spec c' c) as [->|]; [congruence | reflexivity].
Qed.

(** Joining [l] with a one-byte separator that no element holds puts one
    separator between neighbours. *)
Lemma count_char_concat (c : ascii) (l : list string) :
  Forall (fun s => count_char c s = 0) l ->
  count_char c (String.concat (String c EmptyString) l) = List.length l - 1.
Proof.
  intros Hl. induction Hl as [|s l Hs Hl IH]; [reflexivity|].
  destruct l as [|t l]; [simpl; lia|].
  change (String.concat (String c EmptyString) (s :: t :: l))
    with (s ++ String c EmptyString ++ String.concat (String c EmptyString) (t :: l))%string.
  rewrite !count_char_app, Hs, IH. simpl. rewrite Ascii.eqb_refl. lia.
Qed.

Lemma quote_byte_bytes (c : ascii) : string_forallb quoted_byte (quote_byte c) = true.
Proof.
  destruct c as [[] [] [] [] [] [] [] []]; reflexivity.
Qed.

Lemma quote_plus_bytes (s : string) : string_forallb quoted_byte (quote_plus s) = true.
Proof.
  induction s as [|c s IH]; simpl; [reflexivity|].
  now rewrite string_forallb_app, quote_byte_bytes, IH.
Qed.

Lemma quoted_is_line_byte (c : ascii) : quoted_byte c = true -> line_byte c = true.
Proof. unfold line_byte. intros ->. reflexivity. Qed.

Lemma line_is_payload_byte (c : ascii) : line_byte c = true -> payload_byte c = true.
Proof. unfold payload_byte. intros ->. reflexivity. Qed.

(** One field of a line. *)
Lemma field_bytes (kv : string * string) :
  string_forallb line_byte (quote_plus (fst kv) ++ "=" ++ quote_plus (snd kv))%string = true
  /\ count_char "=" (quote_plus (fst kv) ++ "=" ++ quote_plus (snd kv))%string = 1
  /\ count_char "&" (quote_plus (fst kv) ++ "=" ++ quote_plus (snd kv))%string = 0.
Proof.
  pose proof (quote_plus_bytes (fst kv)) as Hk.
  pose proof (quote_plus_bytes (snd kv)) as Hv.
  split; [|split].
  - rewrite !string_forallb_app.
    rewrite (string_forallb_weaken _ _ _ quoted_is_line_byte Hk).
    rewrite (string_forallb_weaken _ _ _ quoted_is_line_byte Hv).
    reflexivity.
  - rewrite !count_char_app.
    rewrite (count_char_absent quoted_byte "=" _ eq_refl Hk).
    rewrite (count_char_absent quoted_byte "=" _ eq_refl Hv).
    reflexivity.
  - rewrite !count_char_app.
    rewrite (count_char_absent quoted_byte "&" _ eq_refl Hk).
    rewrite (count_char_absent quoted_byte "&" _ eq_refl Hv).
    reflexivity.
Qed.

Lemma count_char_concat_fields (c sep : ascii) (l : list string) (n : nat) :
  Forall (fun s => count_char c s = n) l ->
  (c =? sep)%char = false ->
  count_char c (String.concat (String sep EmptyString) l) = n * List.length l.
Proof.
  intros Hl Hne. induction Hl as [|s l Hs Hl IH]; [simpl; lia|].
  destruct l as [|t l]; [simpl in *; lia|].
  change (String.concat (String sep EmptyString) (s :: t :: l))
    with (s ++ String sep EmptyString
            ++ String.concat (String sep EmptyString) (t :: l))%string.
  rewrite !count_char_app, Hs, IH. simpl count_char at 1.
  rewrite Ascii.eqb_sym, Hne. simpl List.length. lia.
Qed.

Lemma urlencode_bytes (query : list (string * string)) :
  string_forallb line_byte (urlencode query) = true
  /\ count_char "=" (urlencode query) = List.length query
  /\ count_char "&" (urlencode query) = List.length query - 1.
Proof.
  unfold urlencode.
  set (field := fun kv : string * string =>
                  (quote_plus (fst kv) ++ "=" ++ quote_plus (snd kv))%string).
  split; [|split].
  - apply string_forallb_concat; [reflexivity|].
    apply Forall_forall. intros s Hs. apply in_map_iff in Hs as [kv [<- _]].
    apply field_bytes.
  - rewrite (count_char_concat_fields "=" "&" _ 1), length_map; [lia| |reflexivity].
    apply Forall_forall. intros s Hs. apply in_map_iff in Hs as [kv [<- _]].
    apply field_bytes.
  - change "&"%string with (String "&"%char EmptyString).
    rewrite count_char_concat, length_map; [reflexivity|].
    apply Forall_forall. intros s Hs. apply in_map_iff in Hs as [kv [<- _]].
    apply field_bytes.
Qed.

Lemma payload_utf8_length (p : Dict) : List.length (payload_utf8 p) = List.length p.
Proof.
  unfold payload_utf8.
  rewrite (Permutation_length (sorted_by_key_perm _)). apply length_map.
Qed.

(** X1.  Whatever the keys and values of the hits hold, the payload of a
    batch is made of unreserved characters, [+], [%], [=], [&] and newlines
    only; it has one line per hit, that is one newline fewer than hits; and
    the line of a hit has one [=] per field and one [&] fewer. *)
Theorem payload_framing (payloads : list Dict) :
  string_forallb payload_byte (prepare_payloads_for_batch_request payloads) = true
  /\ count_char "010" (prepare_payloads_for_batch_request payloads)
     = List.length payloads - 1
  /\ Forall (fun p => count_char "=" (urlencode (payload_utf8 p)) = List.length p
                      /\ count_char "&" (urlencode (payload_utf8 p)) = List.length p - 1)
            payloads.
Proof.
  unfold prepare_payloads_for_batch_request.
  split; [|split].
  - apply string_forallb_concat; [reflexivity|].
    apply Forall_forall. intros s Hs.
    apply in_map_iff in Hs as [q [<- _]].
    apply (string_forallb_weaken _ _ _ line_is_payload_byte), urlencode_bytes.
  - unfold newline. rewrite count_char_concat, !length_map; [reflexivity|].
    apply Forall_forall. intros s Hs.
    apply in_map_iff in Hs as [q [<- _]].
    apply (count_char_absent line_byte); [reflexivity | apply urlencode_bytes].
  - apply Forall_forall. intros p _.
    destruct (urlencode_bytes (payload_utf8 p)) as [_ [He Ha]].
    now rewrite He, Ha, payload_utf8_length.
Qed.

(* ------------------------------------------------------------------ *)
(** ** Quoting loses nothing *)

Lemma unquote_quote_byte (c : ascii) (s : string) :
  unquote_plus (quote_byte c ++ s)%string = String c (unquote_plus s).
Proof.
  destruct c as [[] [] [] [] [] [] [] []]; reflexivity.
Qed.

Lemma unquote_quote_plus (s : string) : unquote_plus (quote_plus s) = s.
Proof.
  induction s as [|c s IH]; [reflexivity|].
  change (quote_plus (String c s)) with (quote_byte c ++ quote_plus s)%string.
  now rewrite unquote_quote_byte, IH.
Qed.

(** X2.  Quoting a key or a value loses nothing: unquoting gives it back,
    so two different strings are never quoted alike. *)
Theorem quote_plus_lossless (s t : string) :
  unquote_plus (quote_plus s) = s
  /\ (quote_plus s = quote_plus t <-> s = t).
Proof.
  split; [apply unquote_quote_plus|]. split.
  - intros H. rewrite <- (unquote_quote_plus s), <- (unquote_quote_plus t).
    now rewrite H.
  - now intros ->.
Qed.

(* ------------------------------------------------------------------ *)
(** ** One submission *)

Lemma send_mp_hit_effect (env : Collab) (p : string) (s f : list string) (w : World) :
  posted (snd (send_mp_hit env p s f w)) = posted w ++ [p]
  /\ log_rows (snd (send_mp_hit env p s f w)) = log_rows w
  /\ mails (snd (send_mp_hit env p s f w)) = mails w
  /\ slept (snd (send_mp_hit env p s f w)) = slept w
  /\ (forall e, fst (send_mp_hit env p s f w) = Raise e
                <-> endpoint env (List.length (posted w)) p = Raise e).
Proof.
  unfold send_mp_hit, bind, print, session_send, ret. simpl.
  destruct (endpoint env (List.length (posted w)) p) as [code|e0]; simpl.
  - destruct (in_range 200 299 code); simpl; repeat split; discriminate.
  - repeat split; intros H; injection H as ->; reflexivity.
Qed.

(** X3.  A call of the submitter makes exactly one POST, with the payload as
    its body, whatever the answer; it writes no log row, sends no mail and
    does not sleep; and it raises exactly when the POST itself ends in a
    fault, with that fault. *)
Theorem send_mp_hit_one_post (env : Collab) (payload : string)
        (s f : list string) (w : World) :
  let run := send_mp_hit env payload s f w in
  posted (snd run) = posted w ++ [payload]
  /\ log_rows (snd run) = log_rows w
  /\ mails (snd run) = mails w
  /\ slept (snd run) = slept w
  /\ (forall e, fst run = Raise e
                <-> endpoint env (List.length (posted w)) payload = Raise e).
Proof. intros run. apply send_mp_hit_effect. Qed.

(* ------------------------------------------------------------------ *)
(** ** The driver under faults *)

(** One iteration, by what its submission does. *)
Lemma loop_body_run (prm : Params) (env : Collab) (st : Locals) (row : Row) (w : World) :
  let pl1 := payload_list st ++ [make_hit (GA_MP_STANDARD_HIT_DETAILS prm) row] in
  let body := prepare_payloads_for_batch_request pl1 in
  loop_body prm env st row w
  = if (i st + 1) mod 20 =? 0 then
      match send_mp_hit env body (success_requests st) (failed_requests st)
                        (snd (print ("Payload to send: " ++ body)%string w)) with
      | (Ret lists, w2) => (Ret (mkLocals 0 (fst lists) (snd lists) []), w2)
      | (Raise e, w2) => (Raise e, w2)
      end
    else (Ret (mkLocals (i st + 1) (success_requests st) (failed_requests st) pl1), w).
Proof.
  intros pl1 body. unfold loop_body. fold pl1. fold body.
  destruct ((i st + 1) mod 20 =? 0); [|reflexivity].
  unfold bind. cbn [print fst snd].
  destruct (send_mp_hit env body (success_requests st) (failed_requests st) _)
    as [[lists|e] w2]; reflexivity.
Qed.

Lemma for_rows_cons (prm : Params) (env : Collab) (row : Row) (df : list Row)
      (st : Locals) (w : World) :
  for_rows prm env (row :: df) st w
  = match loop_body prm env st row w with
    | (Ret st', w') => for_rows prm env df st' w'
    | (Raise e, w') => (Raise e, w')
    end.
Proof. reflexivity. Qed.

(** Lines 200-233, by what the loop and the last submission do. *)
Lemma submit_batches_run (prm : Params) (env : Collab) (df : list Row) (w : World) :
  submit_batches prm env df w
  = match for_rows prm env df (mkLocals 0 [] [] []) w with
    | (Raise e, w1) => (Raise e, w1)
    | (Ret st, w1) =>
        if 0 <? i st then
          let body := prepare_payloads_for_batch_request (payload_list st) in
          send_mp_hit env body (success_requests st) (failed_requests st)
                      (snd (print ("Payload to send: " ++ body)%string
                                  (snd (print "Sending remaining items to GA" w1))))
        else (Ret (success_requests st, failed_requests st), w1)
    end.
Proof.
  unfold submit_batches, bind.
  destruct (for_rows prm env df (mkLocals 0 [] [] []) w) as [[st|e] w1]; [|reflexivity].
  destruct (0 <? i st); reflexivity.
Qed.

(** The loop, whatever the endpoint does: the bodies POSTed are payloads of
    the first batches the accumulator forms, in order; when the loop ends
    normally all the full batches were POSTed, and when it is left by a fault
    the last body POSTed is the one that met it. *)
Lemma for_rows_posts (prm : Params) (env : Collab) (df : list Row) :
  forall (st : Locals) (w : World),
  exists flushed rest,
    accumulate_from (map (make_hit (GA_MP_STANDARD_HIT_DETAILS prm)) df)
                    (i st) (payload_list st) [] = flushed ++ rest
    /\ posted (snd (for_rows prm env df st w))
       = posted w ++ map prepare_payloads_for_batch_request flushed
    /\ match fst (for_rows prm env df st w) with
       | Ret st' => rest = if 0 <? i st' then [payload_list st'] else []
       | Raise e =>
           exists before batch,
             flushed = before ++ [batch]
             /\ endpoint env (List.length (posted w) + List.length before)
                         (prepare_payloads_for_batch_request batch) = Raise e
       end.
Proof.
  induction df as [|row df IH]; intros st w.
  - exists [], (if 0 <? i st then [payload_list st] else []). simpl.
    rewrite app_nil_r. repeat split.
  - rewrite for_rows_cons, loop_body_run. cbn [map accumulate_from].
    set (pl1 := payload_list st ++ [make_hit (GA_MP_STANDARD_HIT_DETAILS prm) row]).
    set (body := prepare_payloads_for_batch_request pl1).
    destruct ((i st + 1) mod 20 =? 0) eqn:E.
    + set (w1 := snd (print ("Payload to send: " ++ body)%string w)).
      assert (Hw1 : posted w1 = posted w) by reflexivity.
      destruct (send_mp_hit_effect env body (success_requests st)
                  (failed_requests st) w1) as [Hposted [_ [_ [_ Hraise]]]].
      destruct (send_mp_hit env body (success_requests st) (failed_requests st) w1)
        as [[lists|e] w2]; cbn [fst snd] in *.
      * destruct (IH (mkLocals 0 (fst lists) (snd lists) []) w2)
          as [flushed [rest [Hacc [Hpost Hend]]]].
        cbn [i payload_list] in Hacc.
        exists (pl1 :: flushed), rest. split; [|split].
        -- rewrite accumulate_from_emitted, Hacc. reflexivity.
        -- rewrite Hpost, Hposted, Hw1. cbn [map]. now rewrite <- app_assoc.
        -- destruct (fst (for_rows prm env df _ w2)) as [st'|e]; [exact Hend|].
           destruct Hend as [before [batch [Hf Hfault]]].
           exists (pl1 :: before), batch. split; [now rewrite Hf|].
           rewrite Hposted, length_app, Hw1 in Hfault. cbn [List.length] in *.
           replace (List.length (posted w) + S (List.length before))
             with (List.length (posted w) + 1 + List.length before) by lia.
           exact Hfault.
      * exists [pl1], (accumulate_from
                         (map (make_hit (GA_MP_STANDARD_HIT_DETAILS prm)) df) 0 [] []).
        split; [|split].
        -- now rewrite accumulate_from_emitted.
        -- rewrite Hposted, Hw1. reflexivity.
        -- exists [], pl1. split; [reflexivity|].
           rewrite Nat.add_0_r, <- Hw1. apply Hraise. reflexivity.
    + apply (IH (mkLocals (i st + 1) (success_requests st) (failed_requests st) pl1) w).
Qed.

Lemma submit_batches_posts (prm : Params) (env : Collab) (df : list Row) (w : World) :
  exists flushed rest,
    accumulate (map (make_hit (GA_MP_STANDARD_HIT_DETAILS prm)) df) = flushed ++ rest
    /\ posted (snd (submit_batches prm env df w))
       = posted w ++ map prepare_payloads_for_batch_request flushed
    /\ match fst (submit_batches prm env df w) with
       | Ret _ => rest = []
       | Raise e =>
           exists before batch,
             flushed = before ++ [batch]
             /\ endpoint env (List.length (posted w) + List.length before)
                         (prepare_payloads_for_batch_request batch) = Raise e
       end.
Proof.
  rewrite submit_batches_run. unfold accumulate.
  destruct (for_rows_posts prm env df (mkLocals 0 [] [] []) w)
    as [flushed [rest [Hacc [Hpost Hend]]]].
  cbn [i payload_list] in Hacc.
  destruct (for_rows prm env df (mkLocals 0 [] [] []) w) as [[st'|e] w1];
    cbn [fst snd] in *.
  - destruct (0 <? i st') eqn:E.
    + cbn zeta.
      set (body := prepare_payloads_for_batch_request (payload_list st')).
      set (w2 := snd (print ("Payload to send: " ++ body)%string _)).
      assert (Hw2 : posted w2 = posted w1) by reflexivity.
      destruct (send_mp_hit_effect env body (success_requests st')
                  (failed_requests st') w2) as [Hposted [_ [_ [_ Hraise]]]].
      exists (flushed ++ [payload_list st']), []. split; [|split].
      * now rewrite app_nil_r, Hacc, Hend.
      * rewrite Hposted, Hw2, Hpost, map_app. now rewrite <- app_assoc.
      * destruct (fst (send_mp_hit env body (success_requests st')
                                   (failed_requests st') w2)) as [lists|e] eqn:Ef;
          [reflexivity|].
        exists flushed, (payload_list st'). split; [reflexivity|].
        pose proof (proj1 (Hraise e) eq_refl) as Hfault.
        rewrite Hw2, Hpost, length_app, length_map in Hfault.
        exact Hfault.
    + exists flushed, []. cbn [fst snd].
      split; [|split]; [now rewrite Hacc, Hend | exact Hpost | reflexivity].
  - exists flushed, rest. split; [exact Hacc|]. split; [exact Hpost|]. exact Hend.
Qed.

(** X4.  Whatever the endpoint answers, the bodies the driver POSTs are the
    payloads of the first k batches of the accumulator, in order, for some
    k: no batch is skipped, repeated or sent out of order.  When lines
    200-233 end normally, k is the number of batches; when a transport fault
    ends them, the k-th POST is the one that met the fault and no later
    batch is sent. *)
Theorem posts_are_a_prefix (prm : Params) (env : Collab) (df : list Row) (w : World) :
  let batches := accumulate (map (make_hit (GA_MP_STANDARD_HIT_DETAILS prm)) df) in
  let run := submit_batches prm env df w in
  exists k,
    k <= List.length batches
    /\ posted (snd run)
       = posted w ++ map prepare_payloads_for_batch_request (firstn k batches)
    /\ match fst run with
       | Ret _ => k = List.length batches
       | Raise e =>
           1 <= k
           /\ endpoint env (List.length (posted w) + (k - 1))
                       (prepare_payloads_for_batch_request (nth (k - 1) batches []))
              = Raise e
       end.
Proof.
  intros batches run.
  destruct (submit_batches_posts prm env df w) as [flushed [rest [Hacc [Hpost Hend]]]].
  fold batches in Hacc. fold run in Hpost, Hend.
  exists (List.length flushed).
  assert (Hfirst : firstn (List.length flushed) batches = flushed).
  { rewrite Hacc, firstn_app, firstn_all, Nat.sub_diag. simpl. apply app_nil_r. }
  split; [|split].
  - rewrite Hacc, length_app. lia.
  - now rewrite Hfirst.
  - destruct (fst run) as [lists|e].
    + subst rest. now rewrite Hacc, app_nil_r.
    + destruct Hend as [before [batch [Hf Hfault]]].
      rewrite Hf, length_app. cbn [List.length]. split; [lia|].
      replace (List.length before + 1 - 1) with (List.length before) by lia.
      rewrite Hacc, Hf, <- app_assoc. rewrite app_nth2 by lia.
      rewrite Nat.sub_diag. exact Hfault.
Qed.

(* ------------------------------------------------------------------ *)
(** ** Runs in which every batch is accepted *)

Lemma accepted_in_range (code : Z) :
  (200 <= code <= 298)%Z -> in_range 200 299 code = true.
Proof. unfold in_range. intros H. apply andb_true_iff. split; lia. Qed.

Lemma send_mp_hit_accepted (env : Collab) (p : string) (s f : list string) (w : World) :
  all_accepted env ->
  exists w', send_mp_hit env p s f w = (Ret (s ++ [p], f), w').
Proof.
  intros Hall. destruct (Hall (List.length (posted w)) p) as [code [Hcode Hok]].
  destruct (send_mp_hit_answered env p s f w code Hcode) as [w' [Hrun _]].
  exists w'. now rewrite Hrun, (accepted_in_range code Hok).
Qed.

Lemma for_rows_accepted (prm : Params) (env : Collab) (df : list Row) :
  all_accepted env ->
  forall (st : Locals) (w : World),
  exists st' w' flushed,
    for_rows prm env df st w = (Ret st', w')
    /\ accumulate_from (map (make_hit (GA_MP_STANDARD_HIT_DETAILS prm)) df)
                       (i st) (payload_list st) []
       = flushed ++ (if 0 <? i st' then [payload_list st'] else [])
    /\ success_requests st'
       = success_requests st ++ map prepare_payloads_for_batch_request flushed
    /\ failed_requests st' = failed_requests st.
Proof.
  intros Hall.
  induction df as [|row df IH]; intros st w.
  - exists st, w, []. simpl. rewrite !app_nil_r. repeat split.
  - rewrite for_rows_cons, loop_body_run. cbn [map accumulate_from].
    set (pl1 := payload_list st ++ [make_hit (GA_MP_STANDARD_HIT_DETAILS prm) row]).
    set (body := prepare_payloads_for_batch_request pl1).
    destruct ((i st + 1) mod 20 =? 0) eqn:E.
    + destruct (send_mp_hit_accepted env body (success_requests st)
                  (failed_requests st)
                  (snd (print ("Payload to send: " ++ body)%string w)) Hall)
        as [w2 Hsend].
      rewrite Hsend. cbn [fst snd].
      destruct (IH (mkLocals 0 (success_requests st ++ [body]) (failed_requests st) []) w2)
        as [st' [w' [flushed [Hrun [Hacc [Hs Hf]]]]]].
      cbn [i payload_list success_requests failed_requests] in *.
      exists st', w', (pl1 :: flushed). split; [exact Hrun|]. split; [|split].
      * rewrite accumulate_from_emitted, Hacc. reflexivity.
      * rewrite Hs. cbn [map]. fold body. now rewrite <- app_assoc.
      * exact Hf.
    + apply (IH (mkLocals (i st + 1) (success_requests st) (failed_requests st) pl1) w).
Qed.

Lemma submit_batches_accepted (prm : Params) (env : Collab) (df : list Row) (w : World) :
  all_accepted env ->
  exists w',
    submit_batches prm env df w
    = (Ret (map prepare_payloads_for_batch_request
                (accumulate (map (make_hit (GA_MP_STANDARD_HIT_DETAILS prm)) df)), []), w').
Proof.
  intros Hall. rewrite submit_batches_run. unfold accumulate.
  destruct (for_rows_accepted prm env df Hall (mkLocals 0 [] [] []) w)
    as [st' [w1 [flushed [Hrun [Hacc [Hs Hf]]]]]].
  cbn [i payload_list success_requests failed_requests app] in *.
  rewrite Hrun, Hacc, Hs, Hf.
  destruct (0 <? i st').
  - cbn zeta.
    destruct (send_mp_hit_accepted env
                (prepare_payloads_for_batch_request (payload_list st'))
                (map prepare_payloads_for_batch_request flushed) []
                (snd (print ("Payload to send: "
                               ++ prepare_payloads_for_batch_request (payload_list st'))%string
                            (snd (print "Sending remaining items to GA" w1)))) Hall)
      as [w2 Hsend].
    exists w2. rewrite Hsend, map_app. reflexivity.
  - exists w1. now rewrite app_nil_r.
Qed.

Lemma accepted_run_returns_aux (prm : Params) (env : Collab) (df : list Row) (w : World) :
  all_accepted env -> fst (write_to_ga_via_mp prm env df w) = Ret tt.
Proof.
  intros Hall. destruct (submit_batches_accepted prm env df w Hall) as [w' Hrun].
  now destruct (write_to_ga_via_mp_report prm env df w w' _ [] Hrun).
Qed.

(** X5.  When every POST is answered with a status code from 200 to 298, the
    driver files the payload of every batch under the successes, in the
    order of the batches, and none under the failures; the report line shows
    ceil(N/20) successes and no failure; and the function returns. *)
Theorem accepted_run_returns (prm : Params) (env : Collab) (df : list Row) (w : World) :
  all_accepted env ->
  let payloads := map prepare_payloads_for_batch_request
                      (accumulate (map (make_hit (GA_MP_STANDARD_HIT_DETAILS prm)) df)) in
  (exists w', submit_batches prm env df w = (Ret (payloads, []), w'))
  /\ fst (write_to_ga_via_mp prm env df w) = Ret tt
  /\ last (stdout (snd (write_to_ga_via_mp prm env df w))) ""%string
     = ("Completed all GA calls. Total successful batches:  "
          ++ str_nat ((List.length df + 19) / 20)
          ++ " and failed batches: 0")%string.
Proof.
  intros Hall payloads.
  destruct (submit_batches_accepted prm env df w Hall) as [w' Hrun].
  fold payloads in Hrun.
  destruct (write_to_ga_via_mp_report prm env df w w' payloads [] Hrun) as [Hout Hret].
  split; [now exists w'|]. split; [exact Hret|].
  rewrite Hout, last_last. unfold report_line, payloads.
  rewrite length_map, accumulate_count, length_map, <- ceil_div_20. reflexivity.
Qed.

Lemma accepted_run_returns_witness :
  fst (write_to_ga_via_mp (sample_params "mp" false false)
         (mkCollab (Ret []) (Ret tt) (fun _ _ => Ret 204%Z) (fun _ => Ret tt)
                   (fun _ => Ret 202%Z) (fun _ => "t"%string))
         (repeat sample_row 41) empty_world) = Ret tt.
Proof.
  apply (accepted_run_returns (sample_params "mp" false false)
           (mkCollab (Ret []) (Ret tt) (fun _ _ => Ret 204%Z) (fun _ => Ret tt)
                     (fun _ => Ret 202%Z) (fun _ => "t"%string))
           (repeat sample_row 41) empty_world).
  intros n body. exists 204%Z. split; [reflexivity | lia].
Defined.

(* ------------------------------------------------------------------ *)
(** ** What each step leaves alone *)

Lemma keeps_bind {A B X} (proj : World -> X) (m : M A) (k : A -> M B) :
  keeps proj m -> (forall a, keeps proj (k a)) -> keeps proj (bind m k).
Proof.
  intros Hm Hk w. unfold bind. specialize (Hm w).
  destruct (m w) as [[a|e] w1]; cbn [snd] in *.
  - now rewrite Hk.
  - exact Hm.
Qed.

Lemma keeps_send_mp_hit {X} (proj : World -> X) (env : Collab) (p : string)
      (s f : list string) :
  (forall line, keeps proj (print line)) ->
  keeps proj (session_send env p) ->
  keeps proj (send_mp_hit env p s f).
Proof.
  intros Hprint Hsend. unfold send_mp_hit.
  apply keeps_bind; [apply Hprint|]. intros _.
  apply keeps_bind; [apply Hsend|]. intros code.
  destruct (negb (in_range 200 299 code));
    (apply keeps_bind; [apply Hprint|]; intros _ w; reflexivity).
Qed.

Lemma keeps_for_rows {X} (proj : World -> X) (prm : Params) (env : Collab)
      (df : list Row) :
  (forall line, keeps proj (print line)) ->
  (forall body, keeps proj (session_send env body)) ->
  forall st, keeps proj (for_rows prm env df st).
Proof.
  intros Hprint Hsend.
  induction df as [|row df IH]; intros st.
  - intros w. reflexivity.
  - simpl. apply keeps_bind; [|intros st'; apply IH].
    unfold loop_body. destruct ((i st + 1) mod 20 =? 0).
    + apply keeps_bind; [apply Hprint|]. intros _.
      apply keeps_bind; [now apply keeps_send_mp_hit|].
      intros lists w. reflexivity.
    + intros w. reflexivity.
Qed.

Lemma keeps_flow {X} (proj : World -> X) (prm : Params) (env : Collab) :
  (forall line, keeps proj (print line)) ->
  (forall body, keeps proj (session_send env body)) ->
  keeps proj (flow prm env).
Proof.
  intros Hprint Hsend. unfold flow.
  apply keeps_bind; [intros w; reflexivity|]. intros df.
  destruct (GA_IMPORT_METHOD prm =? "di")%string; [intros w; reflexivity|].
  destruct (GA_IMPORT_METHOD prm =? "mp")%string; [|intros w; reflexivity].
  unfold write_to_ga_via_mp.
  apply keeps_bind.
  - unfold submit_batches.
    apply keeps_bind; [now apply keeps_for_rows|]. intros st.
    destruct (0 <? i st); [|intros w; reflexivity].
    apply keeps_bind; [apply Hprint|]. intros _.
    apply keeps_bind; [apply Hprint|]. intros _.
    now apply keeps_send_mp_hit.
  - intros lists.
    apply keeps_bind; [apply Hprint|]. intros _.
    destruct (snd lists); [intros w; reflexivity|].
    apply keeps_bind; [intros w; reflexivity|]. intros line. apply Hprint.
Qed.

Lemma keeps_write_to_bq_logs {X} (proj : World -> X) (env : Collab)
      (status message : string) :
  (forall ms, keeps proj (time_sleep ms)) ->
  keeps proj (now env) ->
  (forall row, keeps proj (bq_query env row)) ->
  keeps proj (write_to_bq_logs env status message).
Proof.
  intros Hsleep Hnow Hquery w. unfold write_to_bq_logs, retry.
  apply call_from_keeps; [exact Hsleep|].
  apply keeps_bind; [exact Hnow|]. intros ts. apply Hquery.
Qed.

Lemma keeps_send_email {X} (proj : World -> X) (env : Collab) (error_message : string) :
  (forall ms, keeps proj (time_sleep ms)) ->
  keeps proj (now env) ->
  (forall mail, keeps proj (sg_send env mail)) ->
  keeps proj (send_email env error_message).
Proof.
  intros Hsleep Hnow Hsend w. unfold send_email, retry.
  apply call_from_keeps; [exact Hsleep|].
  apply keeps_bind; [exact Hnow|]. intros ts.
  apply keeps_bind; [apply Hsend|]. intros code.
  destruct (negb (first_digit_is_2 code)); intros w0; reflexivity.
Qed.

Lemma keeps_when {X} (proj : World -> X) (b : bool) (m : M unit) :
  (b = true -> keeps proj m) -> keeps proj (when b m).
Proof.
  destruct b; intros H; [now apply H | intros w; reflexivity].
Qed.

Lemma keeps_on_error {X} (proj : World -> X) (prm : Params) (env : Collab)
      (ts : string) (e : PyExn) :
  (ENABLED_LOGGING prm = true -> keeps proj (write_to_bq_logs env "ERROR" (exn_str e))) ->
  (ENABLED_EMAIL prm = true -> keeps proj (send_email env (exn_str e))) ->
  keeps proj (on_error prm env ts e).
Proof.
  intros Hlog Hmail. unfold on_error.
  apply keeps_bind; [now apply keeps_when|]. intros _.
  apply keeps_bind; [now apply keeps_when|]. intros _ w. reflexivity.
Qed.

(** The controller keeps what its clock read, its flow, and the side effects
    its flags enable all keep. *)
Lemma keeps_trigger_workflow {X} (proj : World -> X) (prm : Params) (env : Collab) :
  keeps proj (now env) ->
  keeps proj (flow prm env) ->
  (ENABLED_LOGGING prm = true ->
   forall status message, keeps proj (write_to_bq_logs env status message)) ->
  (ENABLED_EMAIL prm = true ->
   forall message, keeps proj (send_email env message)) ->
  keeps proj (trigger_workflow prm env).
Proof.
  intros Hnow Hflow Hlog Hmail w.
  rewrite trigger_workflow_run.
  assert (Htry : keeps proj (try_block prm env)).
  { unfold try_block. apply keeps_bind; [exact Hflow|]. intros _.
    apply keeps_when. intros H. now apply Hlog. }
  specialize (Htry (snd (now env w))). rewrite (Hnow w) in Htry.
  destruct (try_block prm env (snd (now env w))) as [[[]|e] w2]; cbn [snd] in *.
  - exact Htry.
  - rewrite <- Htry. apply keeps_on_error; intros H; [now apply Hlog | now apply Hmail].
Qed.

(** X6.  The flags are obeyed, and a run that succeeds sends no mail: with
    logging off the controller attempts no log row, with mail off no mail,
    and no mail either in a run that returns a SUCCESS outcome, whatever the
    flag. *)
Theorem side_effects_obey_flags (prm : Params) (env : Collab) (w : World) :
  let run := trigger_workflow prm env w in
  (ENABLED_LOGGING prm = false -> log_rows (snd run) = log_rows w)
  /\ (ENABLED_EMAIL prm = false -> mails (snd run) = mails w)
  /\ (fst run = Ret (clock env (clock_reads w) ++ ",SUCCESS")%string ->
      mails (snd run) = mails w).
Proof.
  intros run. split; [|split].
  - intros Hoff. apply keeps_trigger_workflow.
    + intros w0. reflexivity.
    + apply keeps_flow; intros x w0; reflexivity.
    + rewrite Hoff. discriminate.
    + intros _ message. apply keeps_send_email; intros x w0 || intros w0; reflexivity.
  - intros Hoff. apply keeps_trigger_workflow.
    + intros w0. reflexivity.
    + apply keeps_flow; intros x w0; reflexivity.
    + intros _ status message.
      apply keeps_write_to_bq_logs; intros x w0 || intros w0; reflexivity.
    + rewrite Hoff. discriminate.
  - unfold run. rewrite trigger_workflow_run.
    assert (Htry : sends_no_mail (try_block prm env)).
    { unfold try_block. apply sends_no_mail_bind; [apply sends_no_mail_flow|].
      intros _. apply sends_no_mail_log. }
    specialize (Htry (snd (now env w))).
    destruct (try_block prm env (snd (now env w))) as [[[]|e] w2]; cbn [fst snd] in *.
    + intros _. exact Htry.
    + rewrite on_error_run.
      destruct (when (ENABLED_LOGGING prm) (write_to_bq_logs env "ERROR" (exn_str e)) w2)
        as [[[]|e1] w3]; [|discriminate].
      destruct (when (ENABLED_EMAIL prm) (send_email env (exn_str e)) w3)
        as [[[]|e2] w4]; [|discriminate].
      cbn [fst]. intros H. injection H as H. apply append_inj_l in H. discriminate H.
Qed.

(** X7.  Only the measurement-protocol path talks to the collection endpoint:
    for every other mode, known or not, the controller makes no POST. *)
Theorem no_post_outside_mp (prm : Params) (env : Collab) (w : World) :
  GA_IMPORT_METHOD prm <> "mp"%string ->
  posted (snd (trigger_workflow prm env w)) = posted w.
Proof.
  intros Hmode. apply keeps_trigger_workflow.
  - intros w0. reflexivity.
  - intros w0. unfold flow, bind.
    destruct (query_result env); [|reflexivity].
    destruct (GA_IMPORT_METHOD prm =? "di")%string; [reflexivity|].
    apply String.eqb_neq in Hmode. rewrite Hmode. reflexivity.
  - intros _ status message.
    apply keeps_write_to_bq_logs; intros x w0 || intros w0; reflexivity.
  - intros _ message. apply keeps_send_email; intros x w0 || intros w0; reflexivity.
Qed.

Lemma no_post_outside_mp_witness :
  posted (snd (trigger_workflow (sample_params "di" true true) env_side_effects_down
                                empty_world)) = posted empty_world.
Proof.
  apply (no_post_outside_mp (sample_params "di" true true) env_side_effects_down
                            empty_world).
  discriminate.
Defined.

(* ------------------------------------------------------------------ *)
(** ** The outcome *)

(** X8.  Every outcome the controller returns starts with the time read on
    entry.  It is "<time>,SUCCESS" exactly when the [try] ran to its end, and
    "<time>,ERROR,<text>" with the text of the exception otherwise; the two
    never coincide. *)
Theorem outcome_shape (prm : Params) (env : Collab) (w : World) (s : string) :
  fst (trigger_workflow prm env w) = Ret s ->
  let ts := clock env (clock_reads w) in
  let tried := fst (try_block prm env (snd (now env w))) in
  (tried = Ret tt /\ s = (ts ++ ",SUCCESS")%string)
  \/ (exists e, tried = Raise e /\ s = (ts ++ ",ERROR," ++ exn_str e)%string
                /\ s <> (ts ++ ",SUCCESS")%string).
Proof.
  rewrite trigger_workflow_run. intros H ts tried. subst tried.
  destruct (try_block prm env (snd (now env w))) as [[[]|e] w2]; cbn [fst] in *.
  - left. split; [reflexivity|]. now injection H as <-.
  - right. exists e. split; [reflexivity|].
    rewrite on_error_run in H.
    destruct (when (ENABLED_LOGGING prm) (write_to_bq_logs env "ERROR" (exn_str e)) w2)
      as [[[]|e1] w3]; [|discriminate].
    destruct (when (ENABLED_EMAIL prm) (send_email env (exn_str e)) w3)
      as [[[]|e2] w4]; [|discriminate].
    cbn [fst] in H. injection H as <-. split; [reflexivity|].
    intros Heq. apply append_inj_l in Heq. discriminate Heq.
Qed.

Lemma outcome_shape_witness :
  (fst (try_block (sample_params "mp" false false) env_middle_failure
                  (snd (now env_middle_failure empty_world))) = Ret tt
   /\ ("2020-06-01 10:00:00,ERROR,can only concatenate str (not "
         ++ dquote ++ "list" ++ dquote ++ ") to str")%string
      = ("2020-06-01 10:00:00" ++ ",SUCCESS")%string)
  \/ (exists e,
         fst (try_block (sample_params "mp" false false) env_middle_failure
                        (snd (now env_middle_failure empty_world))) = Raise e
         /\ ("2020-06-01 10:00:00,ERROR,can only concatenate str (not "
               ++ dquote ++ "list" ++ dquote ++ ") to str")%string
            = ("2020-06-01 10:00:00" ++ ",ERROR," ++ exn_str e)%string
         /\ ("2020-06-01 10:00:00,ERROR,can only concatenate str (not "
               ++ dquote ++ "list" ++ dquote ++ ") to str")%string
            <> ("2020-06-01 10:00:00" ++ ",SUCCESS")%string).
Proof.
  apply (outcome_shape (sample_params "mp" false false) env_middle_failure empty_world).
  vm_compute. reflexivity.
Defined.

Lemma retry_first_ok {A} (args : RetryArgs) (fn : M A) (w : World) :
  is_raise (fst (fn w)) = false -> retry args fn w = fn w.
Proof.
  intros H. unfold retry.
  destruct (stop_max_attempt_number args - 1); simpl;
    destruct (fn w) as [[a|e] w1]; try reflexivity; discriminate H.
Qed.

(** X9.  A run in measurement-protocol mode in which the rows are read,
    every POST is answered with a status from 200 to 298 and, if logging is
    on, the first INSERT is accepted: the controller returns
    "<time>,SUCCESS"; with logging on it leaves exactly one log row, with
    status SUCCESS and an empty message, and with logging off none; it never
    sleeps and sends no mail. *)
Theorem accepted_run_succeeds (prm : Params) (env : Collab) (df : list Row) (w : World) :
  GA_IMPORT_METHOD prm = "mp"%string ->
  query_result env = Ret df ->
  all_accepted env ->
  (ENABLED_LOGGING prm = true -> bq_insert env (List.length (log_rows w)) = Ret tt) ->
  let run := trigger_workflow prm env w in
  fst run = Ret (clock env (clock_reads w) ++ ",SUCCESS")%string
  /\ log_rows (snd run)
     = log_rows w ++ (if ENABLED_LOGGING prm
                      then [(clock env (S (clock_reads w)), "SUCCESS", "")]%string
                      else [])
  /\ slept (snd run) = slept w
  /\ mails (snd run) = mails w.
Proof.
  intros Hmode Hq Hall Hins run. subst run.
  rewrite trigger_workflow_run. unfold try_block, bind.
  set (w1 := snd (now env w)).
  assert (Hflow : flow prm env w1 = write_to_ga_via_mp prm env df w1).
  { unfold flow, bind. rewrite Hq, Hmode. reflexivity. }
  pose proof (accepted_run_returns_aux prm env df w1 Hall) as Hret.
  pose proof (keeps_flow log_rows prm env
                (fun _ _ => eq_refl) (fun _ _ => eq_refl) w1) as Hlog.
  pose proof (keeps_flow clock_reads prm env
                (fun _ _ => eq_refl) (fun _ _ => eq_refl) w1) as Hclock.
  pose proof (keeps_flow slept prm env
                (fun _ _ => eq_refl) (fun _ _ => eq_refl) w1) as Hslept.
  pose proof (keeps_flow mails prm env
                (fun _ _ => eq_refl) (fun _ _ => eq_refl) w1) as Hmails.
  rewrite Hflow in *.
  destruct (write_to_ga_via_mp prm env df w1) as [[[]|e] w2]; cbn [fst snd] in *;
    [|discriminate Hret].
  destruct (ENABLED_LOGGING prm) eqn:Elog; cbn [when].
  - assert (Hbody : write_to_bq_logs_body env "SUCCESS" "" w2
                    = (Ret tt, snd (write_to_bq_logs_body env "SUCCESS" "" w2))).
    { unfold write_to_bq_logs_body, bind, now, bq_query. cbn [fst snd log_rows].
      rewrite Hlog. subst w1. cbn [now snd log_rows]. now rewrite (Hins eq_refl). }
    unfold write_to_bq_logs. rewrite retry_first_ok by now rewrite Hbody.
    rewrite Hbody. cbn [fst snd].
    destruct (write_to_bq_logs_body_effect env "SUCCESS" "" w2) as [Hr [Hs Hm]].
    rewrite Hr, Hs, Hm, Hlog, Hclock, Hslept, Hmails.
    subst w1. repeat split.
  - unfold ret. cbn [fst snd]. rewrite Hlog, Hslept, Hmails, app_nil_r.
    subst w1. repeat split.
Qed.

Lemma accepted_run_succeeds_witness :
  fst (trigger_workflow (sample_params "mp" true true)
         (mkCollab (Ret (repeat sample_row 21)) (Ret tt) (fun _ _ => Ret 200%Z)
                   (fun _ => Ret tt) (fun _ => Ret 202%Z)
                   (fun _ => "2020-06-01 10:00:00"%string))
         empty_world)
  = Ret "2020-06-01 10:00:00,SUCCESS"%string.
Proof.
  apply (accepted_run_succeeds (sample_params "mp" true true)
           (mkCollab (Ret (repeat sample_row 21)) (Ret tt) (fun _ _ => Ret 200%Z)
                     (fun _ => Ret tt) (fun _ => Ret 202%Z)
                     (fun _ => "2020-06-01 10:00:00"%string))
           (repeat sample_row 21) empty_world).
  - reflexivity.
  - reflexivity.
  - intros n body. exists 200%Z. split; [reflexivity | lia].
  - intros _. reflexivity.
Defined.

(* ------------------------------------------------------------------ *)
(** ** A transport fault on the first POST *)

Lemma for_rows_first_fault (prm : Params) (env : Collab) (e : PyExn) (df : list Row) :
  forall (st : Locals) (w : World),
  (forall body, endpoint env (List.length (posted w)) body = Raise e) ->
  (exists st', for_rows prm env df st w = (Ret st', w)
               /\ i st' = i st + List.length df)
  \/ (fst (for_rows prm env df st w) = Raise e
      /\ List.length (posted (snd (for_rows prm env df st w)))
         = List.length (posted w) + 1).
Proof.
  induction df as [|row df IH]; intros st w Hfault.
  - left. exists st. split; [reflexivity | simpl; lia].
  - rewrite for_rows_cons, loop_body_run.
    set (pl1 := payload_list st ++ [make_hit (GA_MP_STANDARD_HIT_DETAILS prm) row]).
    set (body := prepare_payloads_for_batch_request pl1).
    destruct ((i st + 1) mod 20 =? 0).
    + right.
      set (w1 := snd (print ("Payload to send: " ++ body)%string w)).
      destruct (send_mp_hit_effect env body (success_requests st)
                  (failed_requests st) w1) as [Hposted [_ [_ [_ Hraise]]]].
      pose proof (proj2 (Hraise e) (Hfault body)) as Hr.
      destruct (send_mp_hit env body (success_requests st) (failed_requests st) w1)
        as [[lists|e0] w2]; cbn [fst snd] in *; [discriminate Hr|].
      injection Hr as ->.
      split; [reflexivity|]. rewrite Hposted, length_app. reflexivity.
    + destruct (IH (mkLocals (i st + 1) (success_requests st) (failed_requests st) pl1)
                   w Hfault) as [[st' [Hrun Hi]]|Hraise].
      * left. exists st'. split; [exact Hrun|]. cbn [i] in Hi. simpl. lia.
      * right. exact Hraise.
Qed.

Lemma submit_batches_first_fault (prm : Params) (env : Collab) (e : PyExn)
      (df : list Row) (w : World) :
  df <> [] ->
  (forall body, endpoint env (List.length (posted w)) body = Raise e) ->
  fst (submit_batches prm env df w) = Raise e
  /\ posted (snd (submit_batches prm env df w))
     = posted w
       ++ [prepare_payloads_for_batch_request
             (hd [] (accumulate (map (make_hit (GA_MP_STANDARD_HIT_DETAILS prm)) df)))].
Proof.
  intros Hdf Hfault.
  assert (Hone : fst (submit_batches prm env df w) = Raise e
                 /\ List.length (posted (snd (submit_batches prm env df w)))
                    = List.length (posted w) + 1).
  { rewrite submit_batches_run.
    destruct (for_rows_first_fault prm env e df (mkLocals 0 [] [] []) w Hfault)
      as [[st' [Hrun Hi]]|Hraise].
    - rewrite Hrun. cbn [i] in Hi.
      assert (Hpos : (0 <? i st') = true).
      { apply Nat.ltb_lt. destruct df; [contradiction | (simpl in Hi; lia)]. }
      rewrite Hpos. cbn zeta.
      set (body := prepare_payloads_for_batch_request (payload_list st')).
      set (w2 := snd (print ("Payload to send: " ++ body)%string _)).
      destruct (send_mp_hit_effect env body (success_requests st')
                  (failed_requests st') w2) as [Hposted [_ [_ [_ Hraise]]]].
      split; [apply Hraise, Hfault|].
      rewrite Hposted, length_app. reflexivity.
    - destruct (for_rows prm env df (mkLocals 0 [] [] []) w) as [[st'|e0] w1];
        cbn [fst snd] in *; [destruct Hraise; discriminate|].
      destruct Hraise as [Hr Hl]. injection Hr as ->. now split. }
  destruct Hone as [Hraise Hlen]. split; [exact Hraise|].
  destruct (submit_batches_posts prm env df w) as [flushed [rest [Hacc [Hpost _]]]].
  rewrite Hpost, length_app, length_map in Hlen.
  destruct flushed as [|b [|b' flushed]]; simpl in Hlen; try lia.
  rewrite Hpost, Hacc. reflexivity.
Qed.

(** X10.  In measurement-protocol mode, when the rows are read, there is at
    least one of them and the first POST ends in a transport fault: that
    POST, carrying the first batch, is the only one made; the fault ends the
    flow and the controller runs its error handler with it; with logging and
    mail off the outcome is "<time>,ERROR,<text of the fault>". *)
Theorem first_post_fault_is_error (prm : Params) (env : Collab) (df : list Row)
        (w : World) (e : PyExn) :
  GA_IMPORT_METHOD prm = "mp"%string ->
  query_result env = Ret df ->
  df <> [] ->
  (forall body, endpoint env (List.length (posted w)) body = Raise e) ->
  let ts := clock env (clock_reads w) in
  let w2 := snd (flow prm env (snd (now env w))) in
  trigger_workflow prm env w = on_error prm env ts e w2
  /\ posted w2
     = posted w
       ++ [prepare_payloads_for_batch_request
             (hd [] (accumulate (map (make_hit (GA_MP_STANDARD_HIT_DETAILS prm)) df)))]
  /\ (ENABLED_LOGGING prm = false -> ENABLED_EMAIL prm = false ->
      trigger_workflow prm env w = (Ret (ts ++ ",ERROR," ++ exn_str e)%string, w2)).
Proof.
  intros Hmode Hq Hdf Hfault ts w2.
  set (w1 := snd (now env w)) in *.
  assert (Hflow : flow prm env w1 = write_to_ga_via_mp prm env df w1).
  { unfold flow, bind. rewrite Hq, Hmode. reflexivity. }
  destruct (submit_batches_first_fault prm env e df w1 Hdf Hfault) as [Hraise Hposted].
  assert (Hmp : write_to_ga_via_mp prm env df w1
                = (Raise e, snd (submit_batches prm env df w1))).
  { unfold write_to_ga_via_mp, bind.
    destruct (submit_batches prm env df w1) as [[lists|e0] w3]; cbn [fst snd] in *;
      [discriminate Hraise | now injection Hraise as ->]. }
  assert (Hw2 : flow prm env w1 = (Raise e, w2)).
  { subst w2. rewrite Hflow, Hmp. reflexivity. }
  assert (Hrun : trigger_workflow prm env w = on_error prm env ts e w2).
  { rewrite trigger_workflow_run. unfold try_block, bind. fold w1. now rewrite Hw2. }
  split; [exact Hrun|]. split.
  - subst w2. rewrite Hflow, Hmp. cbn [snd]. exact Hposted.
  - intros Hlog Hmail. rewrite Hrun, on_error_run, Hlog, Hmail. reflexivity.
Qed.

Lemma first_post_fault_is_error_witness :
  trigger_workflow (sample_params "mp" false false) env_transport_fault empty_world
  = (Ret ("2020-06-01 10:00:00" ++ ",ERROR," ++ "Connection aborted.")%string,
     snd (flow (sample_params "mp" false false) env_transport_fault
               (snd (now env_transport_fault empty_world)))).
Proof.
  apply (first_post_fault_is_error (sample_params "mp" false false) env_transport_fault
           (repeat sample_row 45) empty_world
           (Exn "ConnectionError" "Connection aborted."));
    try reflexivity.
  discriminate.
Defined.

(* ------------------------------------------------------------------ *)
(** ** The status check of the mail *)

Lemma forallb_seq_Z (p : Z -> bool) (lo len : nat) :
  forallb (fun n => p (Z.of_nat n)) (seq lo len) = true ->
  forall code, (Z.of_nat lo <= code < Z.of_nat (lo + len))%Z -> p code = true.
Proof.
  intros H code Hc. rewrite forallb_forall in H.
  rewrite <- (Z2Nat.id code) by lia. apply H, in_seq. lia.
Qed.

(** X11.  For a status code of three digits, the mail counts as sent exactly
    when the code is from 200 to 299: line 283 looks at the first digit, so
    299 passes here although line 165 files a 299 under the failures. *)
Theorem send_email_accepts_2xx (code : Z) :
  (100 <= code <= 999)%Z ->
  first_digit_is_2 code = ((200 <=? code) && (code <=? 299))%Z
  /\ (first_digit_is_2 299 = true /\ in_range 200 299 299 = false).
Proof.
  intros Hc. split; [|split; reflexivity].
  apply Bool.eqb_prop.
  apply (forallb_seq_Z
           (fun c => Bool.eqb (first_digit_is_2 c) ((200 <=? c) && (c <=? 299))%Z)
           100 900).
  - vm_compute. reflexivity.
  - simpl. lia.
Qed.

Lemma send_email_accepts_2xx_witness :
  first_digit_is_2 204 = ((200 <=? 204) && (204 <=? 299))%Z
  /\ (first_digit_is_2 299 = true /\ in_range 200 299 299 = false).
Proof. apply (send_email_accepts_2xx 204). lia. Defined.

(* ------------------------------------------------------------------ *)
(** ** What a retried call leaves behind *)

(** The loop appends only entries that pass [P] where the operation does. *)
Lemma call_from_appends {A X} (proj : World -> list X) (P : X -> Prop)
      (args : RetryArgs) (fn : M A) :
  (forall ms w, proj (snd (time_sleep ms w)) = proj w) ->
  (forall w, exists rest, proj (snd (fn w)) = proj w ++ rest /\ Forall P rest) ->
  forall remaining first w,
  exists rest, proj (snd (call_from args remaining first fn w)) = proj w ++ rest
               /\ Forall P rest.
Proof.
  intros Hsleep Hfn.
  induction remaining as [|r IH]; intros first w; cbn [call_from];
    destruct (Hfn w) as [rest [H HP]]; destruct (fn w) as [[a|e] w1]; cbn [snd] in *;
    try (now exists rest).
  destruct (IH (S first) (snd (time_sleep (exponential_sleep args first) w1)))
    as [rest' [H' HP']].
  exists (rest ++ rest'). rewrite H'. rewrite (Hsleep _ w1), H.
  split; [now rewrite app_assoc | now apply Forall_app].
Qed.

(** X12.  A call of the log write attempts between one and five INSERTs, and
    every row it attempts carries the status and the message it was called
    with; the mail likewise attempts between one and five sends, each with
    the error message it was called with.  Only the time of a row or a mail
    differs from attempt to attempt. *)
Theorem retried_attempts_repeat_arguments (env : Collab)
        (status message error_message : string) (w : World) :
  (exists rows,
      log_rows (snd (write_to_bq_logs env status message w)) = log_rows w ++ rows
      /\ 1 <= List.length rows <= 5
      /\ Forall (fun row => snd (fst row) = status /\ snd row = message) rows)
  /\ (exists sent,
         mails (snd (send_email env error_message w)) = mails w ++ sent
         /\ 1 <= List.length sent <= 5
         /\ Forall (fun mail => snd mail = error_message) sent).
Proof.
  split.
  - destruct (call_from_appends log_rows
                (fun row => snd (fst row) = status /\ snd row = message)
                retry_args (write_to_bq_logs_body env status message)
                (fun _ _ => eq_refl)) with (remaining := 4) (first := 1) (w := w)
      as [rows [Hrows HP]].
    { intros w0. eexists. split; [apply write_to_bq_logs_body_effect|].
      repeat constructor. }
    exists rows. split; [exact Hrows|]. split; [|exact HP].
    destruct (retry_counts (write_to_bq_logs_body env status message)
                (fun w0 => List.length (log_rows w0))) with (w := w)
      as [k [Hk [_ [_ [_ [Hcnt _]]]]]].
    + intros w0. destruct (write_to_bq_logs_body_effect env status message w0) as [H _].
      rewrite H, length_app. simpl. lia.
    + intros w0. apply write_to_bq_logs_body_effect.
    + reflexivity.
    + fold (write_to_bq_logs env status message) in Hcnt.
      unfold write_to_bq_logs, retry in Hcnt.
      change (stop_max_attempt_number retry_args - 1) with 4 in Hcnt.
      rewrite Hrows, length_app in Hcnt. lia.
  - destruct (call_from_appends mails (fun mail => snd mail = error_message)
                retry_args (send_email_body env error_message)
                (fun _ _ => eq_refl)) with (remaining := 4) (first := 1) (w := w)
      as [sent [Hsent HP]].
    { intros w0. eexists. split; [apply send_email_body_effect|].
      repeat constructor. }
    exists sent. split; [exact Hsent|]. split; [|exact HP].
    destruct (retry_counts (send_email_body env error_message)
                (fun w0 => List.length (mails w0))) with (w := w)
      as [k [Hk [_ [_ [_ [Hcnt _]]]]]].
    + intros w0. destruct (send_email_body_effect env error_message w0) as [H _].
      rewrite H, length_app. simpl. lia.
    + intros w0. apply send_email_body_effect.
    + reflexivity.
    + unfold retry in Hcnt.
      change (stop_max_attempt_number retry_args - 1) with 4 in Hcnt.
      rewrite Hsent, length_app in Hcnt. lia.
Qed.

(** The sum of a list of waits. *)
Lemma waits_bound (k : nat) :
  (fold_right Z.add 0 (firstn k [2000; 4000; 8000; 10000]) <= 24000)%Z.
Proof.
  destruct k as [|[|[|[|k]]]]; cbn [firstn]; rewrite ?firstn_nil; simpl; lia.
Qed.

(** X13.  A call of the log write or of the mail sleeps for at most 24000 ms
    in all, and not at all when its first attempt succeeds. *)
Theorem retried_call_waits_at_most_24s (env : Collab)
        (status message error_message : string) (w : World) :
  (exists waits,
      slept (snd (write_to_bq_logs env status message w)) = slept w ++ waits
      /\ (fold_right Z.add 0 waits <= 24000)%Z
      /\ (is_raise (fst (write_to_bq_logs_body env status message w)) = false ->
          waits = []))
  /\ (exists waits,
         slept (snd (send_email env error_message w)) = slept w ++ waits
         /\ (fold_right Z.add 0 waits <= 24000)%Z
         /\ (is_raise (fst (send_email_body env error_message w)) = false ->
             waits = [])).
Proof.
  split.
  - destruct (retry_counts (write_to_bq_logs_body env status message)
                (fun w0 => List.length (log_rows w0))) with (w := w)
      as [k [Hk [_ [Hbefore [_ [_ Hslept]]]]]].
    + intros w0. destruct (write_to_bq_logs_body_effect env status message w0) as [H _].
      rewrite H, length_app. simpl. lia.
    + intros w0. apply write_to_bq_logs_body_effect.
    + reflexivity.
    + exists (firstn k [2000; 4000; 8000; 10000]%Z).
      split; [exact Hslept|]. split; [apply waits_bound|].
      intros Hok. destruct k as [|k]; [reflexivity|].
      specialize (Hbefore 0 ltac:(lia)). cbn [attempt_world attempt_world_from] in Hbefore.
      unfold attempt_world in Hbefore. cbn [attempt_world_from] in Hbefore.
      rewrite Hok in Hbefore. discriminate Hbefore.
  - destruct (retry_counts (send_email_body env error_message)
                (fun w0 => List.length (mails w0))) with (w := w)
      as [k [Hk [_ [Hbefore [_ [_ Hslept]]]]]].
    + intros w0. destruct (send_email_body_effect env error_message w0) as [H _].
      rewrite H, length_app. simpl. lia.
    + intros w0. apply send_email_body_effect.
    + reflexivity.
    + exists (firstn k [2000; 4000; 8000; 10000]%Z).
      split; [exact Hslept|]. split; [apply waits_bound|].
      intros Hok. destruct k as [|k]; [reflexivity|].
      specialize (Hbefore 0 ltac:(lia)).
      unfold attempt_world in Hbefore. cbn [attempt_world_from] in Hbefore.
      rewrite Hok in Hbefore. discriminate Hbefore.
Qed.

Lemma send_email_body_refused (env : Collab) (error_message : string) (w : World) :
  (forall n, exists code, sendgrid env n = Ret code /\ first_digit_is_2 code = false) ->
  fst (send_email_body env error_message w) = Raise (Exn "Exception" "Email not sent.").
Proof.
  intros Hall. unfold send_email_body, bind, now, sg_send. cbn [fst snd mails].
  destruct (Hall (List.length (mails w))) as [code [-> Hno]].
  now rewrite Hno.
Qed.

(** X14.  When the mail service answers every send with a status whose
    first digit is not 2, the mail is sent five times and the call then
    raises [Exception("Email not sent.")]; in the error handler that
    exception leaves the controller, so no outcome is returned. *)
Theorem refused_mail_raises (env : Collab) (error_message : string) (w : World) :
  (forall n, exists code, sendgrid env n = Ret code /\ first_digit_is_2 code = false) ->
  fst (send_email env error_message w) = Raise (Exn "Exception" "Email not sent.")
  /\ List.length (mails (snd (send_email env error_message w)))
     = List.length (mails w) + 5
  /\ (forall prm ts e,
         ENABLED_LOGGING prm = false -> ENABLED_EMAIL prm = true ->
         exn_str e = error_message ->
         fst (on_error prm env ts e w) = Raise (Exn "Exception" "Email not sent.")).
Proof.
  intros Hall.
  destruct (retry_counts (send_email_body env error_message)
              (fun w0 => List.length (mails w0))) with (w := w)
    as [k [Hk [Hrun [_ [Hlast [Hcnt _]]]]]].
  { intros w0. destruct (send_email_body_effect env error_message w0) as [H _].
    rewrite H, length_app. simpl. lia. }
  { intros w0. apply send_email_body_effect. }
  { reflexivity. }
  fold (send_email env error_message) in Hrun, Hlast, Hcnt.
  assert (Hraise : fst (send_email env error_message w)
                   = Raise (Exn "Exception" "Email not sent.")).
  { rewrite Hrun. now apply send_email_body_refused. }
  split; [exact Hraise|]. split.
  - rewrite Hcnt, (Hlast ltac:(now rewrite Hraise)). reflexivity.
  - intros prm ts e Hlog Hmail <-. rewrite on_error_run, Hlog, Hmail. cbn [when].
    unfold ret at 1.
    destruct (send_email env (exn_str e) w) as [[[]|e1] w4]; cbn [fst] in *;
      [discriminate Hraise | now injection Hraise as ->].
Qed.

Lemma refused_mail_raises_witness :
  fst (send_email (mkCollab (Ret []) (Ret tt) (fun _ _ => Ret 200%Z) (fun _ => Ret tt)
                            (fun _ => Ret 500%Z) (fun _ => "t"%string))
                  "boom" empty_world)
  = Raise (Exn "Exception" "Email not sent.").
Proof.
  apply (refused_mail_raises
           (mkCollab (Ret []) (Ret tt) (fun _ _ => Ret 200%Z) (fun _ => Ret tt)
                     (fun _ => Ret 500%Z) (fun _ => "t"%string))
           "boom" empty_world).
  intros n. exists 500%Z. split; reflexivity.
Defined.

(* ------------------------------------------------------------------ *)
(** ** An empty result set *)

(** X15.  In measurement-protocol mode a query without rows leads to no POST
    at all, whatever the endpoint would answer: the flow only prints the
    report line with 0 successes and 0 failures, and with logging off the
    controller returns "<time>,SUCCESS". *)
Theorem empty_result_posts_nothing (prm : Params) (env : Collab) (w : World) :
  GA_IMPORT_METHOD prm = "mp"%string ->
  query_result env = Ret [] ->
  let run := trigger_workflow prm env w in
  posted (snd run) = posted w
  /\ (ENABLED_LOGGING prm = false ->
      fst run = Ret (clock env (clock_reads w) ++ ",SUCCESS")%string
      /\ stdout (snd run)
         = stdout w
           ++ ["Completed all GA calls. Total successful batches:  0 and failed batches: 0"%string]).
Proof.
  intros Hmode Hq run.
  assert (Hflow : forall w0, flow prm env w0 = (Ret tt, snd (print (report_line [] []) w0))).
  { intros w0. unfold flow, bind. rewrite Hq, Hmode. reflexivity. }
  split.
  - apply keeps_trigger_workflow.
    + intros w0. reflexivity.
    + intros w0. now rewrite Hflow.
    + intros _ status message.
      apply keeps_write_to_bq_logs; intros x w0 || intros w0; reflexivity.
    + intros _ message. apply keeps_send_email; intros x w0 || intros w0; reflexivity.
  - intros Hlog. subst run. rewrite trigger_workflow_run. unfold try_block, bind.
    rewrite Hflow, Hlog. split; reflexivity.
Qed.

Lemma empty_result_posts_nothing_witness :
  posted (snd (trigger_workflow (sample_params "mp" true true)
                 (mkCollab (Ret []) (Ret tt)
                           (fun _ _ => Raise (Exn "ConnectionError" "Connection aborted."))
                           (fun _ => Ret tt) (fun _ => Ret 202%Z) (fun _ => "t"%string))
                 empty_world))
  = posted empty_world.
Proof.
  apply (empty_result_posts_nothing (sample_params "mp" true true)
           (mkCollab (Ret []) (Ret tt)
                     (fun _ _ => Raise (Exn "ConnectionError" "Connection aborted."))
                     (fun _ => Ret tt) (fun _ => Ret 202%Z) (fun _ => "t"%string))
           empty_world); reflexivity.
Defined.

(* ------------------------------------------------------------------ *)
(** ** The columns read_from_bq returns *)

Lemma str_replace_char_spec (old new : ascii) (s : string) :
  (old =? new)%char = false ->
  String.length (str_replace_char old new s) = String.length s
  /\ count_char old (str_replace_char old new s) = 0
  /\ count_char new (str_replace_char old new s) = count_char new s + count_char old s
  /\ (count_char old s = 0 -> str_replace_char old new s = s).
Proof.
  intros Hne.
  induction s as [|c s [Hlen [Hold [Hnew Hsame]]]]; simpl.
  - repeat split.
  - rewrite Hlen, Hold, Hnew.
    destruct (Ascii.eqb_spec c old) as [->|Hc].
    + rewrite (Ascii.eqb_sym new old), Hne, Ascii.eqb_refl.
      repeat split; try lia.
    + apply Ascii.eqb_neq in Hc. rewrite ?Hc.
      repeat split; try lia. intros H. now rewrite (Hsame H).
Qed.

(** X16.  In data-import mode [read_from_bq] turns every underscore of every
    column name into a colon, all of them and not only the first, and
    changes nothing else: the number and order of the columns, the length of
    each name and the names without an underscore stay.  In every other mode
    the column names are returned as the query gave them. *)
Theorem returned_columns_renamed (prm : Params) (columns : list string) :
  (GA_IMPORT_METHOD prm = "di"%string ->
   Forall2 (fun old new =>
              String.length new = String.length old
              /\ count_char "_" new = 0
              /\ count_char ":" new = count_char ":" old + count_char "_" old
              /\ (count_char "_" old = 0 -> new = old))
           columns (returned_columns prm columns))
  /\ (GA_IMPORT_METHOD prm <> "di"%string -> returned_columns prm columns = columns)
  /\ str_replace_char "_" ":" "ga_client_id" = "ga:client:id"%string.
Proof.
  unfold returned_columns. split; [|split].
  - intros ->. simpl.
    induction columns as [|c columns IH]; constructor; [|exact IH].
    apply str_replace_char_spec. reflexivity.
  - intros Hne. apply String.eqb_neq in Hne. now rewrite Hne.
  - reflexivity.
Qed.

(* ------------------------------------------------------------------ *)
(** ** Deleting earlier uploads *)

Lemma upload_field_error (u : Upload) (k : string) (e : PyExn) :
  upload_field u k = Raise e -> e = Exn "KeyError" ("'" ++ k ++ "'")%string.
Proof.
  induction u as [|[k' v] u IH]; simpl.
  - intros H. now injection H as <-.
  - destruct (k' =? k)%string; [discriminate | exact IH].
Qed.

Lemma upload_ids_spec (l : list Upload) :
  match upload_ids l with
  | Ret ids => Forall2 (fun u id => upload_field u "id" = Ret id) l ids
  | Raise e => e = Exn "KeyError" "'id'"
               /\ Exists (fun u => is_raise (upload_field u "id") = true) l
  end.
Proof.
  induction l as [|u l IH]; simpl.
  - constructor.
  - destruct (upload_field u "id") as [id|e] eqn:E.
    + destruct (upload_ids l) as [ids|e].
      * constructor; assumption.
      * destruct IH as [He Hex]. split; [exact He | now apply Exists_cons_tl].
    + split; [apply (upload_field_error u "id" e E)|].
      apply Exists_cons_hd. now rewrite E.
Qed.

(** X17.  Of the uploads the listing names, the function asks to delete all
    but the first, in one request that names their ids in the order of the
    listing; the first entry is never read, so it is kept whatever it holds.
    With one upload or none the request is still made, with no id in it.
    When an upload after the first has no id, the function raises
    [KeyError] and makes no request. *)
Theorem delete_spares_first_upload (first : Upload) (rest : list Upload)
        (del : list string -> Result unit) :
  let api := mkGaApi (Ret (Some (first :: rest))) del in
  (forall first',
      delete_ga_prev_uploads (mkGaApi (Ret (Some (first' :: rest))) del)
      = delete_ga_prev_uploads api)
  /\ match upload_ids rest with
     | Ret ids =>
         delete_ga_prev_uploads api = (del ids, [ids])
         /\ Forall2 (fun u id => upload_field u "id" = Ret id) rest ids
     | Raise e =>
         delete_ga_prev_uploads api = (Raise (Exn "KeyError" "'id'"), [])
         /\ Exists (fun u => is_raise (upload_field u "id") = true) rest
     end
  /\ delete_ga_prev_uploads (mkGaApi (Ret (Some [first])) del) = (del [], [[]])
  /\ delete_ga_prev_uploads (mkGaApi (Ret (Some [])) del) = (del [], [[]])
  /\ delete_ga_prev_uploads (mkGaApi (Ret None) del)
     = (Raise (Exn "KeyError" "'items'"), []).
Proof.
  intros api. split; [reflexivity|]. split; [|repeat split].
  pose proof (upload_ids_spec rest) as H.
  unfold api, delete_ga_prev_uploads. cbn [uploads_list uploads_delete tl].
  destruct (upload_ids rest) as [ids|e].
  - split; [reflexivity | exact H].
  - destruct H as [-> Hex]. split; [reflexivity | exact Hex].
Qed.

(* ------------------------------------------------------------------ *)
(** ** The batches the driver forms *)

(** C4, as the code has it.  The driver groups the hits of the rows while it
    submits them.  In a run in which no POST ends in a transport fault,
    lines 200-233 end normally and the bodies POSTed are, in order, the
    payloads of floor(N/20) batches of twenty hits followed by one batch of
    the N mod 20 remaining hits when N mod 20 > 0: no batch is empty, and
    the batches, concatenated in order, are the hits of the rows as they
    came.  In every run the bodies POSTed are the payloads of the first k of
    these batches, in order, and k is their number when the lines end
    normally. *)
Theorem driver_batches (prm : Params) (env : Collab) (df : list Row) (w : World) :
  let hits := map (make_hit (GA_MP_STANDARD_HIT_DETAILS prm)) df in
  let n := List.length df in
  let run := submit_batches prm env df w in
  exists batches,
    List.concat batches = hits
    /\ map (@List.length Dict) batches
       = repeat 20 (n / 20) ++ (if 0 <? n mod 20 then [n mod 20] else [])
    /\ Forall (fun batch => 1 <= List.length batch <= 20) batches
    /\ (no_transport_fault env ->
        is_raise (fst run) = false
        /\ posted (snd run)
           = posted w ++ map prepare_payloads_for_batch_request batches)
    /\ (exists k,
           k <= List.length batches
           /\ posted (snd run)
              = posted w ++ map prepare_payloads_for_batch_request (firstn k batches)
           /\ (is_raise (fst run) = false -> k = List.length batches)).
Proof.
  intros hits n run. exists (accumulate hits).
  destruct (accumulate_batches hits) as [Hc [Hs [Hall _]]].
  unfold hits in Hs at 2 3 4. rewrite length_map in Hs. fold n in Hs.
  split; [exact Hc|]. split; [exact Hs|]. split; [exact Hall|]. split.
  - intros Hnf.
    destruct (submit_batches_answered prm env df w Hnf) as [s [f [w' [Hrun [Hpost _]]]]].
    unfold run. rewrite Hrun. split; [reflexivity | exact Hpost].
  - destruct (submit_batches_posts prm env df w) as [flushed [rest [Hacc [Hpost Hend]]]].
    fold hits in Hacc. fold run in Hpost, Hend.
    exists (List.length flushed).
    assert (Hfirst : firstn (List.length flushed) (accumulate hits) = flushed).
    { rewrite Hacc, firstn_app, firstn_all, Nat.sub_diag. simpl. apply app_nil_r. }
    split; [|split].
    + rewrite Hacc, length_app. lia.
    + now rewrite Hfirst.
    + intros Hok. destruct (fst run) as [lists|e]; [|discriminate Hok].
      subst rest. now rewrite Hacc, app_nil_r.
Qed.

Lemma driver_batches_witness :
  is_raise (fst (submit_batches (sample_params "mp" false false) env_middle_failure
                                (repeat sample_row 45) empty_world)) = false
  /\ List.length
       (posted (snd (submit_batches (sample_params "mp" false false) env_middle_failure
                                    (repeat sample_row 45) empty_world)))
     = 3.
Proof.
  destruct (driver_batches (sample_params "mp" false false) env_middle_failure
                           (repeat sample_row 45) empty_world)
    as [batches [_ [_ [_ [Hok _]]]]].
  destruct Hok as [Hret _].
  - intros n body. simpl. destruct (n =? 1); reflexivity.
  - split; [exact Hret | vm_compute; reflexivity].
Defined.

(** C4, as stated, fails on a run whose first POST ends in a transport
    fault: of the 45 hits only the first batch of twenty is formed and
    handed to the encoder; the two other batches are never yielded, and what
    was yielded does not give back the 45 hits. *)
Lemma grouping_stops_on_transport_fault :
  posted (snd (submit_batches (sample_params "mp" false false) env_transport_fault
                              (repeat sample_row 45) empty_world))
  = [prepare_payloads_for_batch_request
       (firstn 20 (map (make_hit (GA_MP_STANDARD_HIT_DETAILS
                                    (sample_params "mp" false false)))
                       (repeat sample_row 45)))]
  /\ fst (submit_batches (sample_params "mp" false false) env_transport_fault
                         (repeat sample_row 45) empty_world)
     = Raise (Exn "ConnectionError" "Connection aborted.")
  /\ List.length (repeat sample_row 45) / 20 = 2
  /\ List.length (repeat sample_row 45) mod 20 = 5.
Proof. vm_compute. repeat split. Qed.
